(** * Transactional fund transfer: SQLAlchemy Core and ORM scripts

    A shallow embedding of
    [01-getting-started-with-sqlalchemy-core/04-transactions-with-sqlalchemy-core-sqlite.py]
    and
    [02-getting-started-with-sqlalchemy-orm/04-handling-transactions-with-orm-sqlite.py].

    The Python functions become computations in a state-and-exception monad
    over a [world] that holds the committed rows of table [accounts], the
    rows seen by the open transaction, the lines written by [print], and the
    transaction-control calls made so far.  The SQL toolkit and the SQLite
    store are external to the repository; the statements the scripts issue
    are given their SQL meaning in the section "The store".

    Assumptions of the model, made once here:
    - the store is reachable, so a statement fails only through the UNIQUE
      constraint on [account_number] or through a parameter that SQLite's
      64-bit INTEGER cannot hold;
    - a balance is a [Z].  A balance within the 64-bit range is an INTEGER of
      the table.  A balance outside it stands for a REAL, which SQLite stores
      when an UPDATE of the Core script overflows the 64-bit range: the
      double nearest to it, [round_double].  The store writes a REAL as its
      own value, except the REAL -2^63, whose value is that of an INTEGER and
      which it writes as -2^63 - 1.  Doubles have 53 significant bits and an
      exponent without bound: no balance reaches the magnitude 2^1024.  The
      ORM script binds every balance it stores as an integer, so its table
      holds INTEGERs only, and its transfer is modelled on such tables;
    - [stdout] records the calls of [print] only (not the SQL echo log). *)

From Stdlib Require Import ZArith String Ascii DecimalString.
From stdpp Require Import base option list gmap strings sorting.

Local Open Scope Z_scope.

(** ** Python values and exceptions *)

Definition str_int (z : Z) : string := NilZero.string_of_int (Z.to_int z).

Definition str_bool (b : bool) : string := if b then "True" else "False".

Definition newline : string := String (ascii_of_nat 10) EmptyString.

(** The exception classes the scripts raise, meet or name in an [except]
    clause.  [ValueError], [IntegrityError] and [OverflowError] are
    subclasses of [Exception], and none of them is a subclass of another. *)
Inductive exn_class := Exception | ValueError | IntegrityError | OverflowError.

Record exn := Raised { class_of : exn_class; str_exn : string }.

Definition issubclass (c d : exn_class) : bool :=
  match d, c with
  | Exception, _ => true
  | ValueError, ValueError => true
  | IntegrityError, IntegrityError => true
  | OverflowError, OverflowError => true
  | _, _ => false
  end.

Definition isinstance (e : exn) (classes : list exn_class) : bool :=
  existsb (issubclass (class_of e)) classes.

(** ** 64-bit integers and doubles *)

(** The range of SQLite's INTEGER, and of the Python ints that the driver
    binds as parameters. *)
Definition int64 (z : Z) : Prop := -9223372036854775808 ≤ z ≤ 9223372036854775807.

Definition fits_int64 (z : Z) : bool :=
  (-9223372036854775808 <=? z) && (z <=? 9223372036854775807).

(** The double nearest to the integer [n ≥ 0]: 53 significant bits, ties to
    the even significand. *)
Definition round_double_pos (n : Z) : Z :=
  let e := Z.log2 n - 52 in
  if e <=? 0 then n
  else
    let q := Z.shiftr n e in
    let r := n - Z.shiftl q e in
    let half := Z.shiftl 1 (e - 1) in
    let q' := if (half <? r) || ((r =? half) && Z.odd q) then q + 1 else q in
    Z.shiftl q' e.

Definition round_double (z : Z) : Z := Z.sgn z * round_double_pos (Z.abs z).

(** Python's [str] of a float that holds an integer of magnitude 2^63 or
    more: the shortest decimal that reads back as the same double, the
    nearest one if there are two, in exponent notation. *)
Fixpoint shortest_decimal (fuel : nat) (k digits n : Z) : Z :=
  match fuel with
  | O => n
  | S fuel =>
      let p := 10 ^ (digits - k) in
      let lo := n / p * p in
      let hi := lo + p in
      let lo_ok := round_double_pos lo =? n in
      let hi_ok := round_double_pos hi =? n in
      if lo_ok && hi_ok
      then if (n - lo <? hi - n) || ((n - lo =? hi - n) && Z.even (n / p)) then lo else hi
      else if lo_ok then lo
      else if hi_ok then hi
      else shortest_decimal fuel (k + 1) digits n
  end.

Fixpoint strip_zeros (fuel : nat) (c : Z) : Z :=
  match fuel with
  | O => c
  | S fuel => if c mod 10 =? 0 then strip_zeros fuel (c / 10) else c
  end.

Definition str_float_pos (n : Z) : string :=
  let c := shortest_decimal 17 1 (Z.of_nat (String.length (str_int n))) n in
  let width := String.length (str_int c) in
  let mantissa :=
    match str_int (strip_zeros width c) with
    | String d EmptyString => String d EmptyString
    | String d rest => String d ("." +:+ rest)
    | EmptyString => EmptyString
    end in
  mantissa +:+ "e+" +:+ str_int (Z.of_nat width - 1).

Definition str_float (d : Z) : string :=
  if d <? 0 then "-" +:+ str_float_pos (- d) else str_float_pos d.

(** [str] of a balance read from the table: an int for an INTEGER, a float
    for a REAL. *)
Definition str_balance (z : Z) : string :=
  if fits_int64 z then str_int z else str_float (round_double z).

(** ** The monad: state [S], and a result that is a value or a raised exception *)

Definition M (S A : Type) : Type := S → (exn + A) * S.

Definition ret {S A} (x : A) : M S A := λ s, (inr x, s).

Definition bind {S A B} (m : M S A) (k : A → M S B) : M S B :=
  λ s, match m s with
       | (inr x, s') => k x s'
       | (inl e, s') => (inl e, s')
       end.

Definition raise {S A} (e : exn) : M S A := λ s, (inl e, s).

Declare Scope py_scope.
Delimit Scope py_scope with py.
Notation "x <- m ;; k" := (bind m (λ x, k))
  (at level 100, m at next level, right associativity) : py_scope.
Notation "m ;; k" := (bind m (λ _, k))
  (at level 100, right associativity) : py_scope.
Local Open Scope py_scope.

Definition when {S} (b : bool) (m : M S unit) : M S unit :=
  if b then m else ret ().

Fixpoint for_each {S A} (l : list A) (body : A → M S unit) : M S unit :=
  match l with
  | [] => ret ()
  | x :: l' => body x ;; for_each l' body
  end.

(** [try: body except classes as e: handler e], with the clauses tried in
    order; an exception no clause names propagates. *)
Definition try_except {S A} (body : M S A)
    (clauses : list (list exn_class * (exn → M S A))) : M S A :=
  λ s, match body s with
       | (inl e, s') =>
           match List.find (λ c, isinstance e c.1) clauses with
           | Some c => c.2 e s'
           | None => (inl e, s')
           end
       | (inr x, s') => (inr x, s')
       end.

(** [try: body finally: final]: [final] always runs; an exception it raises
    replaces the result of [body]. *)
Definition try_finally {S A} (body : M S A) (final : M S unit) : M S A :=
  λ s, match body s with
       | (r, s') =>
           match final s' with
           | (inl e, s'') => (inl e, s'')
           | (inr _, s'') => (r, s'')
           end
       end.

(** ** The store *)

(** One row of table [accounts]. *)
Record account := Account { id : Z; account_number : string; balance : Z }.

Inductive txn_call := Begin | Commit | Rollback.

Record world := World {
  accounts : list account;          (* committed rows, in insertion order *)
  pending : option (list account);  (* rows as the open transaction sees them *)
  stdout : list string;             (* one entry per call of print *)
  journal : list txn_call;          (* transaction-control calls, oldest first *)
}.

Definition set_accounts (t : list account) (w : world) : world :=
  World t (pending w) (stdout w) (journal w).
Definition set_pending (p : option (list account)) (w : world) : world :=
  World (accounts w) p (stdout w) (journal w).
Definition log_call (c : txn_call) (w : world) : world :=
  World (accounts w) (pending w) (stdout w) (journal w ++ [c]).

Definition print (line : string) : M world unit :=
  λ w, (inr (), World (accounts w) (pending w) (stdout w ++ [line]) (journal w)).

(** The rows a statement of the connection sees. *)
Definition visible (w : world) : list account := default (accounts w) (pending w).

Definition has_number (n : string) (r : account) : bool :=
  String.eqb (account_number r) n.

Definition exists_account (n : string) (t : list account) : bool :=
  existsb (has_number n) t.

(** The number of rows that [WHERE account_number = n] matches. *)
Definition rowcount (n : string) (t : list account) : Z :=
  Z.of_nat (length (filter (λ r, has_number n r = true) t)).

(** [SELECT balance FROM accounts WHERE account_number = n], as an observation. *)
Definition balance_of (n : string) (t : list account) : option Z :=
  balance <$> List.find (has_number n) t.

(** The next value of the autoincremented primary key. *)
Definition next_id (t : list account) : Z := 1 + foldr Z.max 0 (id <$> t).

(** The error of the UNIQUE constraint on the INSERT of account number [n]
    with balance [b], with the text that SQLAlchemy 2.0 gives it: the message
    of the driver, the statement, its parameters and the link to the
    documentation of the error. *)
Definition integrity_error (n : string) (b : Z) : exn :=
  Raised IntegrityError
    ("(sqlite3.IntegrityError) UNIQUE constraint failed: accounts.account_number"
     +:+ newline +:+ "[SQL: INSERT INTO accounts (account_number, balance) VALUES (?, ?)]"
     +:+ newline +:+ "[parameters: ('" +:+ n +:+ "', " +:+ str_int b +:+ ")]"
     +:+ newline +:+ "(Background on this error at: https://sqlalche.me/e/20/gkpj)").

(** The violation that the row added by the simulated fault of the ORM
    transfer meets. *)
Definition unique_violation : exn := integrity_error "ACC001" 999.

(** The error of the driver for an int parameter outside the 64-bit range. *)
Definition too_large : exn :=
  Raised OverflowError "Python int too large to convert to SQLite INTEGER".

(** Binding the Python int [z] as a parameter of a statement. *)
Definition bind_int (z : Z) : M world unit :=
  λ w, if fits_int64 z then (inr (), w) else (inl too_large, w).

(** What the column, of INTEGER affinity, stores for the REAL [d] that an
    expression gives: the INTEGER of the same value when that lies strictly
    inside the 64-bit range, and the REAL otherwise.  No double has the value
    2^63 - 1; the REAL -2^63 is written as the balance just below the range. *)
Definition store_real (d : Z) : Z :=
  if d =? -9223372036854775808 then -9223372036854775809 else d.

(** SQLite's [x - y] and [x + y] for a stored balance [x] and a bound
    integer [y].  On an INTEGER [x] the result is the integer one when it fits
    in 64 bits.  Otherwise the operation is carried out on doubles, and its
    result is a REAL. *)
Definition sqlite_sub (x y : Z) : Z :=
  if fits_int64 x && fits_int64 (x - y) then x - y
  else store_real (round_double (round_double x - round_double y)).

Definition sqlite_add (x y : Z) : Z :=
  if fits_int64 x && fits_int64 (x + y) then x + y
  else store_real (round_double (round_double x + round_double y)).

(** A fresh connection has no transaction; leaving the [with] block closes it. *)
Definition connect : M world unit := λ w, (inr (), set_pending None w).
Definition close : M world unit := λ w, (inr (), set_pending None w).

Definition with_connection {A} (body : M world A) : M world A :=
  connect ;; try_finally body close.

(** [connection.begin()] *)
Definition begin : M world unit :=
  λ w, (inr (), log_call Begin (set_pending (Some (accounts w)) w)).

(** A statement on a connection without a transaction begins one. *)
Definition autobegin : M world unit :=
  λ w, match pending w with
       | Some _ => (inr (), w)
       | None => begin w
       end.

Definition update_row (n : string) (f : Z → Z) (r : account) : account :=
  if has_number n r then Account (id r) (account_number r) (f (balance r)) else r.

(** [UPDATE accounts SET balance = balance op :amount WHERE account_number = n]
    with [amount] bound as a parameter; the result is [rowcount]. *)
Definition execute_update (n : string) (op : Z → Z → Z) (amount : Z) : M world Z :=
  autobegin ;;
  bind_int amount ;;
  λ w, (inr (rowcount n (visible w)),
        set_pending (Some (update_row n (λ b, op b amount) <$> visible w)) w).

(** [INSERT INTO accounts (account_number, balance) VALUES (:n, :b)] *)
Definition execute_insert (n : string) (b : Z) : M world unit :=
  autobegin ;;
  bind_int b ;;
  λ w, if exists_account n (visible w)
       then (inl (integrity_error n b), w)
       else (inr (), set_pending (Some (visible w ++ [Account (next_id (visible w)) n b])) w).

(** [trans.commit()] *)
Definition commit : M world unit :=
  λ w, (inr (), log_call Commit (set_pending None (set_accounts (visible w) w))).

(** [trans.rollback()] *)
Definition rollback : M world unit :=
  λ w, (inr (), log_call Rollback (set_pending None w)).

(** Rows ordered by [account_number] under SQLite's BINARY collation. *)
Definition number_le (r1 r2 : account) : Prop :=
  String.leb (account_number r1) (account_number r2) = true.

#[global] Instance number_le_dec : RelDecision number_le :=
  λ r1 r2, decide (String.leb (account_number r1) (account_number r2) = true).

Definition order_by_account_number (t : list account) : list account :=
  merge_sort number_le t.

(** [SELECT ... FROM accounts ORDER BY account_number] on a connection of its
    own: it reads the committed rows. *)
Definition execute_select_ordered : M world (list account) :=
  λ w, (inr (order_by_account_number (accounts w)), w).

(** [connection.dialect.has_table(connection, "accounts")]: a query on the
    connection.  Whether the file of the store holds the table is not part of
    the [world]; the answer is a parameter of the run. *)
Definition has_table (table_exists : bool) : M world bool :=
  autobegin ;; ret table_exists.

(** [DROP TABLE accounts]: the connection no longer sees any row. *)
Definition execute_drop_table : M world unit :=
  autobegin ;; λ w, (inr (), set_pending (Some []) w).

(** [metadata.create_all(engine)] where both scripts call it: the table has
    just been dropped or was never there, so it is created, with no rows. *)
Definition create_all : M world unit :=
  λ w, (inr (), set_accounts [] w).

(** What the interpreter does with a script: exit status 0 when the module
    body returns, and the traceback with exit status 1 when an exception
    reaches the top level. *)
Definition run_script (script : M world unit) (w : world) : Z * world :=
  match script w with
  | (inr _, w') => (0, w')
  | (inl _, w') => (1, w')
  end.

(** ** The Core script *)

Module Core.

Definition initial_data : list (string * Z) :=
  [("ACC001", 1000); ("ACC002", 2000); ("ACC003", 3000)].

(** [setup_accounts_table(engine)] on a store where [has_table] answers
    [table_exists]. *)
Definition setup_accounts_table_on (table_exists : bool) : M world unit :=
  print "Setting up the accounts table..." ;;
  with_connection (
    found <- has_table table_exists ;;
    when found (
      execute_drop_table ;;
      print "Existing accounts table dropped.") ;;
    commit ;;
    create_all ;;
    print "Accounts table created successfully.") ;;
  with_connection (
    for_each initial_data (λ d, execute_insert d.1 d.2) ;;
    commit ;;
    print "Initial data inserted into accounts tabale.").

(** The function on a store that holds the table, as it does from the second
    run of the script on. *)
Definition setup_accounts_table : M world unit := setup_accounts_table_on true.

Definition balance_line (row : account) : string :=
  "Account Number: " +:+ account_number row +:+ ", Balance: " +:+ str_balance (balance row).

Definition get_account_balances : M world unit :=
  print "Current account balances:" ;;
  rows <- execute_select_ordered ;;
  for_each rows (λ row, print (balance_line row)).

Definition not_found (n : string) : exn :=
  Raised ValueError ("Account " +:+ n +:+ " not found").

Definition simulated_failure : exn :=
  Raised Exception "Simulated failure during fund transfer.".

(** The statements of the [try] block. *)
Definition transfer_funds_try (from_acc_number to_acc_number : string)
    (amount : Z) (should_fail : bool) : M world unit :=
  begin ;;
  print "Transaction Started." ;;
  deduct_results <- execute_update from_acc_number sqlite_sub amount ;;
  when (deduct_results =? 0) (raise (not_found from_acc_number)) ;;
  when should_fail (
    print "Simulating a failure..." ;;
    execute_insert "ACC999" 1000 ;;
    raise simulated_failure) ;;
  add_results <- execute_update to_acc_number sqlite_add amount ;;
  when (add_results =? 0) (
    print ("Account " +:+ to_acc_number +:+ " not found, rolling back transaction.") ;;
    raise (not_found to_acc_number)) ;;
  commit ;;
  print "Transaction Committed successfully.".

(** The [except] clause.  [trans] is set by the first statement of the
    [try] block, which does not fail, so [if trans] is taken. *)
Definition transfer_funds_except (e : exn) : M world unit :=
  print ("Error Occurred: " +:+ str_exn e +:+ ", rolling back transaction.") ;;
  rollback ;;
  print "Transaction Rolled back.".

Definition transfer_funds (from_acc_number to_acc_number : string)
    (amount : Z) (should_fail : bool) : M world unit :=
  print ("Transferring " +:+ str_int amount +:+ " from " +:+ from_acc_number
         +:+ " to " +:+ to_acc_number) ;;
  with_connection (
    try_finally
      (try_except
         (transfer_funds_try from_acc_number to_acc_number amount should_fail)
         [([IntegrityError; ValueError; Exception], transfer_funds_except)])
      get_account_balances).

(** The statements of the [try] block of the script, on a store where
    [has_table] answers [table_exists]. *)
Definition main_try_on (table_exists : bool) : M world unit :=
  print "Database connection engine created." ;;
  setup_accounts_table_on table_exists ;;
  print "---" ;;
  get_account_balances ;;
  print "---" ;;
  transfer_funds "ACC001" "ACC002" 100 false ;;
  print "---" ;;
  transfer_funds "ACC001" "ACC003" 50 true ;;
  print "---" ;;
  transfer_funds "NON_EXISTENT_ACC" "ACC002" 100 false ;;
  print "---".

Definition main_try : M world unit := main_try_on true.

Definition main_except (e : exn) : M world unit :=
  print ("An error occurred: " +:+ str_exn e).

(** [try: body except Exception as e: ...], the frame of the script. *)
Definition main_frame (body : M world unit) : M world unit :=
  try_except body [([Exception], main_except)].

Definition main_on (table_exists : bool) : M world unit :=
  main_frame (main_try_on table_exists).

Definition main : M world unit := main_on true.

End Core.

(** ** The ORM script *)

Module Orm.

(** The session: the objects loaded so far, keyed by primary key (so two
    queries that reach the same row give the same object), and the objects
    passed to [session.add] that are not yet inserted. *)
Record session := Session {
  identity_map : gmap Z account;
  new : list (string * Z);
}.

Definition state : Type := world * session.

Definition lift {A} (m : M world A) : M state A :=
  λ s, match m s.1 with (r, w') => (r, (w', s.2)) end.

(** [with Session() as session: body]; leaving the block closes the session. *)
Definition with_session {A} (body : M state A) : M world A :=
  connect ;;
  try_finally (λ w, match body (w, Session ∅ []) with (r, s') => (r, s'.1) end) close.

(** [session.query(Account).filter_by(account_number=n).first()]: the
    result is a reference to the object of the first matching row; an object
    already in the identity map keeps its attributes. *)
Definition query_first (n : string) : M state (option Z) :=
  lift autobegin ;;
  λ s, match List.find (has_number n) (visible s.1) with
       | None => (inr None, s)
       | Some r =>
           (inr (Some (id r)),
            (s.1, match identity_map s.2 !! id r with
                  | Some _ => s.2
                  | None => Session (<[id r := r]> (identity_map s.2)) (new s.2)
                  end))
       end.

(** [obj.balance]; a reference that a query returned is in the identity map. *)
Definition get_balance (obj : Z) : M state Z :=
  λ s, match identity_map s.2 !! obj with
       | Some o => (inr (balance o), s)
       | None => (inl (Raised Exception "object is not in the session"), s)
       end.

Definition with_balance (v : Z) (o : account) : account :=
  Account (id o) (account_number o) v.

(** [obj.balance = v] *)
Definition set_balance (obj : Z) (v : Z) : M state unit :=
  λ s, (inr (),
        (s.1, Session (alter (with_balance v) obj (identity_map s.2)) (new s.2))).

(** [session.add(Account(account_number=n, balance=b))] *)
Definition session_add (n : string) (b : Z) : M state unit :=
  λ s, (inr (), (s.1, Session (identity_map s.2) (new s.2 ++ [(n, b)]))).

Definition flush_row (im : gmap Z account) (r : account) : account :=
  match im !! id r with
  | Some o => with_balance (balance o) r
  | None => r
  end.

(** The balances that the flush binds: the new balance of each loaded
    object whose balance is no longer that of its row. *)
Definition flush_binds (im : gmap Z account) (t : list account) : list Z :=
  omap (λ r, match im !! id r with
             | Some o => if balance o =? balance r then None else Some (balance o)
             | None => None
             end) t.

(** The flush: one [UPDATE accounts SET balance = ? WHERE id = ?] for each
    loaded object whose balance changed, then one [INSERT] for each added
    object. *)
Definition flush : M state unit :=
  lift autobegin ;;
  (λ s, if forallb fits_int64 (flush_binds (identity_map s.2) (visible s.1))
        then (inr (),
              (set_pending (Some (flush_row (identity_map s.2) <$> visible s.1)) s.1, s.2))
        else (inl too_large, s)) ;;
  pend <- (λ s, (inr (new s.2), s)) ;;
  lift (for_each pend (λ d, execute_insert d.1 d.2)).

(** [session.commit()]: flush, commit the transaction, forget the objects. *)
Definition session_commit : M state unit :=
  flush ;;
  lift commit ;;
  λ s, (inr (), (s.1, Session ∅ [])).

(** [session.rollback()] *)
Definition session_rollback : M state unit :=
  lift rollback ;;
  λ s, (inr (), (s.1, Session ∅ [])).

Definition initial_data : list (string * Z) :=
  [("ACC001", 1000); ("ACC002", 500); ("ACC003", 200)].

(** [Base.metadata.drop_all(engine)] drops the table if the store holds it;
    no row is left either way. *)
Definition setup_accounts_orm_table : M world unit :=
  print (newline +:+ "Setting up Accounts table in sqlite (ORM)" +:+ newline) ;;
  with_connection (execute_drop_table ;; commit) ;;
  create_all ;;
  print "Created Accounts table in sqlite (ORM)" ;;
  with_session (
    for_each initial_data (λ d, session_add d.1 d.2) ;;
    session_commit ;;
    lift (print (newline +:+ "Inital Accounts Data Inserted Successfully..." +:+ newline))).

Definition balance_line (account : account) : string :=
  "Account Number: " +:+ account_number account +:+ ", Balance: " +:+ str_balance (balance account).

Definition get_account_balances_orm : M world unit :=
  print (newline +:+ "--------------------- Current Account Balances---------------------------" +:+ newline) ;;
  accounts <- execute_select_ordered ;;
  for_each accounts (λ account, print (balance_line account)).

Definition source_not_found (n : string) : exn :=
  Raised ValueError ("Source Account " +:+ n +:+ " not fount").

Definition insufficient_funds (n : string) : exn :=
  Raised ValueError ("Insufficient Funds in Account " +:+ n).

Definition destination_not_found (n : string) : exn :=
  Raised ValueError ("Destination Account " +:+ n +:+ " not found").

(** The statements of the [try] block. *)
Definition transfer_funds_orm_try (from_account_number to_account_number : string)
    (amount : Z) (should_fail : bool) : M state unit :=
  from_account <- query_first from_account_number ;;
  match from_account with
  | None => raise (source_not_found from_account_number)
  | Some from_account =>
      from_balance <- get_balance from_account ;;
      when (from_balance <? amount) (raise (insufficient_funds from_account_number)) ;;
      to_account <- query_first to_account_number ;;
      match to_account with
      | None => raise (destination_not_found to_account_number)
      | Some to_account =>
          (b <- get_balance from_account ;; set_balance from_account (b - amount)) ;;
          (b <- get_balance to_account ;; set_balance to_account (b + amount)) ;;
          when should_fail (
            lift (print "Simulating an error in fund transfer.....") ;;
            session_add "ACC001" 999) ;;
          session_commit ;;
          lift (print ("Fund Transfer from " +:+ from_account_number +:+ " to "
                       +:+ to_account_number +:+ " successful."))
      end
  end.

Definition transfer_failed (e : exn) : M state unit :=
  lift (print ("Fund Transfer Failed. Rolling back transaction. Error " +:+ str_exn e)) ;;
  session_rollback.

Definition unexpected_error (e : exn) : M state unit :=
  lift (print ("An unexpected error occurred: " +:+ str_exn e)) ;;
  session_rollback.

Definition transfer_funds_orm (from_account_number to_account_number : string)
    (amount : Z) (should_fail : bool) : M world unit :=
  print (newline +:+ "Attempting to Transfer Funds from " +:+ from_account_number
         +:+ " to " +:+ to_account_number +:+ ", Fail?: " +:+ str_bool should_fail
         +:+ newline) ;;
  with_session (
    try_finally
      (try_except
         (transfer_funds_orm_try from_account_number to_account_number amount should_fail)
         [([ValueError; IntegrityError], transfer_failed);
          ([Exception], unexpected_error)])
      (lift get_account_balances_orm)).

(** The statements of the script.  [create_engine] and [engine.dispose()]
    open and close the pool of connections; they leave the store as it is. *)
Definition main_body : M world unit :=
  setup_accounts_orm_table ;;
  get_account_balances_orm ;;
  transfer_funds_orm "ACC001" "ACC002" 200 false ;;
  transfer_funds_orm "ACC001" "ACC003" 500 true ;;
  transfer_funds_orm "NONEXISTENT" "ACC001" 100 false ;;
  print (newline +:+ "--- SQLite ORM transactions complete. ---").

(** The frame of the script: its statements run with no [try] around them. *)
Definition main_frame (body : M world unit) : M world unit := body.

Definition main : M world unit := main_frame main_body.

End Orm.

(** ** Worlds to run the scripts in *)

(** A store whose table is empty, before any output. *)
Definition fresh : world := World [] None [] [].

(** The store after the seeding of each script. *)
Definition core_seeded : world := (Core.setup_accounts_table fresh).2.
Definition orm_seeded : world := (Orm.setup_accounts_orm_table fresh).2.

(** A store that holds the accounts ACC002 and ACC003 only. *)
Definition two_accounts : world :=
  World [Account 1 "ACC002" 500; Account 2 "ACC003" 200] None [] [].

(** ** The vocabulary of the statements *)

Definition put_lines (lines : list string) (w : world) : world :=
  World (accounts w) (pending w) (stdout w ++ lines) (journal w).

Definition transferring (from to : string) (amount : Z) : string :=
  "Transferring " +:+ str_int amount +:+ " from " +:+ from +:+ " to " +:+ to.

Definition balances_report (t : list account) : list string :=
  "Current account balances:" :: (Core.balance_line <$> order_by_account_number t).

Definition error_occurred (e : exn) : string :=
  "Error Occurred: " +:+ str_exn e +:+ ", rolling back transaction.".

(** The world after a transfer that printed [lines] and was rolled back. *)
Definition rolled_back (lines : list string) (w : world) : world :=
  World (accounts w) None
    (stdout w ++ lines ++ balances_report (accounts w))
    (journal w ++ [Begin; Rollback]).

(** The rows after both updates of a transfer, as SQLite computes them. *)
Definition moved (from to : string) (amount : Z) (t : list account) : list account :=
  update_row to (λ b, sqlite_add b amount)
    <$> (update_row from (λ b, sqlite_sub b amount) <$> t).

(** The rows after a debit and a credit in exact integer arithmetic. *)
Definition moved_exactly (from to : string) (amount : Z) (t : list account)
    : list account :=
  update_row to (λ b, b + amount) <$> (update_row from (λ b, b - amount) <$> t).

(** Every balance of the table is a 64-bit INTEGER. *)
Definition int64_table (t : list account) : Prop :=
  ∀ r, r ∈ t → int64 (balance r).

(** The balances that a transfer of [amount] writes are 64-bit integers: the
    debited balance of the source and the credited balance of the
    destination, where these accounts exist. *)
Definition keeps_int64 (from to : string) (amount : Z) (t : list account) : Prop :=
  (∀ b, balance_of from t = Some b → int64 (b - amount))
  ∧ (∀ b, balance_of to t = Some b → int64 (b + amount)).

Definition attempting (from to : string) (sf : bool) : string :=
  newline +:+ "Attempting to Transfer Funds from " +:+ from +:+ " to " +:+ to
  +:+ ", Fail?: " +:+ str_bool sf +:+ newline.

Definition transfer_failed_line (e : exn) : string :=
  "Fund Transfer Failed. Rolling back transaction. Error " +:+ str_exn e.

Definition unexpected_line (e : exn) : string :=
  "An unexpected error occurred: " +:+ str_exn e.

(** The line that the [except] clauses of the ORM transfer print for [e]. *)
Definition handler_line (e : exn) : string :=
  if isinstance e [ValueError; IntegrityError]
  then transfer_failed_line e else unexpected_line e.

Definition balances_report_orm (t : list account) : list string :=
  (newline +:+ "--------------------- Current Account Balances---------------------------" +:+ newline)
  :: (Orm.balance_line <$> order_by_account_number t).

Definition rolled_back_orm (lines : list string) (w : world) : world :=
  World (accounts w) None
    (stdout w ++ lines ++ balances_report_orm (accounts w))
    (journal w ++ [Begin; Rollback]).

(** The rows after the flush of a session that holds the object with key
    [k1] at balance [v1] and, when [k2] is another key, the object with key
    [k2] at balance [v2]. *)
Definition settle (k1 v1 k2 v2 : Z) (r : account) : account :=
  if decide (id r = k2) then Orm.with_balance v2 r
  else if decide (id r = k1) then Orm.with_balance v1 r
  else r.

Definition dirty (r1 r2 : account) (amount : Z) : gmap Z account :=
  alter (Orm.with_balance (balance r2 + amount)) (id r2)
    (alter (Orm.with_balance (balance r1 - amount)) (id r1)
       (<[id r2 := r2]> (<[id r1 := r1]> ∅))).

Definition dirty_same (r1 : account) (amount : Z) : gmap Z account :=
  alter (Orm.with_balance (balance r1 - amount + amount)) (id r1)
    (alter (Orm.with_balance (balance r1 - amount)) (id r1) (<[id r1 := r1]> ∅)).

Definition successful_line (from to : string) : string :=
  "Fund Transfer from " +:+ from +:+ " to " +:+ to +:+ " successful.".

(** The world after an ORM transfer that printed [lines] and committed [rows]. *)
Definition committed_orm (rows : list account) (lines : list string) (w : world) : world :=
  World rows None
    (stdout w ++ lines ++ balances_report_orm rows)
    (journal w ++ [Begin; Commit]).

Definition simulating_orm : string := "Simulating an error in fund transfer.....".

(** The identity map of the session when the ORM transfer reaches its
    commit, having loaded [r1] as source and [r2] as destination. *)
Definition loaded (r1 r2 : account) (amount : Z) : gmap Z account :=
  if decide (id r1 = id r2) then dirty_same r1 amount else dirty r1 r2 amount.

(** The flush of that session binds 64-bit integers only. *)
Definition bindable (r1 r2 : account) (amount : Z) (t : list account) : bool :=
  forallb fits_int64 (Orm.flush_binds (loaded r1 r2 amount) t).

(** The world in which the [try] block of the ORM transfer starts. *)
Definition entered (from to : string) (sf : bool) (w : world) : world :=
  World (accounts w) None (stdout w ++ [attempting from to sf]) (journal w).

(** The world after the first statement on a connection with no transaction. *)
Definition begun (w : world) : world :=
  World (accounts w) (Some (accounts w)) (stdout w) (journal w ++ [Begin]).

(** The part of the [try] block of the ORM transfer that follows the two
    assignments to [balance]. *)
Definition commit_part (from to : string) (sf : bool) : M Orm.state unit :=
  when sf (
    Orm.lift (print "Simulating an error in fund transfer.....") ;;
    Orm.session_add "ACC001" 999) ;;
  Orm.session_commit ;;
  Orm.lift (print ("Fund Transfer from " +:+ from +:+ " to " +:+ to +:+ " successful.")).

(** What the simulated fault of the ORM transfer prints and adds. *)
Definition fault_lines (sf : bool) : list string := if sf then [simulating_orm] else [].
Definition fault_new (sf : bool) : list (string * Z) := if sf then [("ACC001", 999)] else [].


(** The PRIMARY KEY constraint on [id]. *)
Definition primary_key (t : list account) : Prop := NoDup (id <$> t).

(** The run returned to its caller: no exception propagated. *)
Definition returns (m : M world unit) (w : world) : Prop := (m w).1 = inr ().

(** The run began one transaction and committed it. *)
Definition commits (m : M world unit) (w : world) : Prop :=
  journal (m w).2 = journal w ++ [Begin; Commit].

(** The run began one transaction and rolled it back. *)
Definition rolls_back (m : M world unit) (w : world) : Prop :=
  journal (m w).2 = journal w ++ [Begin; Rollback].

(** The lines the run printed. *)
Definition printed (m : M world unit) (w : world) : list string :=
  drop (length (stdout w)) (stdout (m w).2).

(** The exception, if any, that left the [try] block of the Core transfer. *)
Definition raised_in_try (from to : string) (amount : Z) (sf : bool) (w : world)
    : exn + unit :=
  (Core.transfer_funds_try from to amount sf w).1.

(** The same for the ORM transfer, in a fresh session. *)
Definition raised_in_try_orm (from to : string) (amount : Z) (sf : bool) (w : world)
    : exn + unit :=
  (Orm.transfer_funds_orm_try from to amount sf (set_pending None w, Orm.Session ∅ [])).1.

(** The six ways a Core transfer can go, by the amount and by what the
    table holds. *)
Inductive core_case (from to : string) (amount : Z) (sf : bool) (w : world) : Prop :=
| core_overflow :
    fits_int64 amount = false →
    core_case from to amount sf w
| core_source_missing :
    fits_int64 amount = true →
    exists_account from (accounts w) = false →
    core_case from to amount sf w
| core_simulated :
    fits_int64 amount = true →
    sf = true → exists_account from (accounts w) = true →
    exists_account "ACC999" (accounts w) = false →
    core_case from to amount sf w
| core_simulated_duplicate :
    fits_int64 amount = true →
    sf = true → exists_account from (accounts w) = true →
    exists_account "ACC999" (accounts w) = true →
    core_case from to amount sf w
| core_destination_missing :
    fits_int64 amount = true →
    sf = false → exists_account from (accounts w) = true →
    exists_account to (accounts w) = false →
    core_case from to amount sf w
| core_committed :
    fits_int64 amount = true →
    sf = false → exists_account from (accounts w) = true →
    exists_account to (accounts w) = true →
    core_case from to amount sf w.

(** The rows an ORM transfer can leave in the table of [w]. *)
Inductive orm_rows (w : world) : list account → Prop :=
| orm_rows_kept : orm_rows w (accounts w)
| orm_rows_settled k1 v1 k2 v2 : orm_rows w (settle k1 v1 k2 v2 <$> accounts w)
| orm_rows_inserted k1 v1 k2 v2 :
    exists_account "ACC001" (accounts w) = false →
    orm_rows w ((settle k1 v1 k2 v2 <$> accounts w)
                ++ [Account (next_id (settle k1 v1 k2 v2 <$> accounts w)) "ACC001" 999]).

(** The UNIQUE constraint on [account_number]. *)
Definition unique_numbers (t : list account) : Prop := NoDup (account_number <$> t).

(** The account numbers and balances of the committed rows, in table order. *)
Definition balances (w : world) : list (string * Z) :=
  (λ r, (account_number r, balance r)) <$> accounts w.

(** The rows that the seeding of the Core script leaves in the table. *)
Definition seeded_rows : list account :=
  [Account 1 "ACC001" 1000; Account 2 "ACC002" 2000; Account 3 "ACC003" 3000].

(** The rows the seeding of the ORM script leaves in the table. *)
Definition orm_seeded_rows : list account :=
  [Account 1 "ACC001" 1000; Account 2 "ACC002" 500; Account 3 "ACC003" 200].

(** The sum of the balances of all rows. *)
Definition total_balance (t : list account) : Z :=
  foldr (λ r s, balance r + s) 0 t.

(** What the Core transfer needs to reach its commit: an amount that can be
    bound, no simulated fault and both account numbers in the table. *)
Definition core_accepts (from to : string) (amount : Z) (sf : bool)
    (t : list account) : bool :=
  fits_int64 amount && negb sf && exists_account from t && exists_account to t.

(** What the ORM transfer needs to reach a successful commit: the source in
    the table with a balance of at least the amount, the destination in the
    table, new balances that can be bound, and no simulated fault or no row
    numbered ACC001 to collide with. *)
Definition orm_accepts (from to : string) (amount : Z) (sf : bool)
    (t : list account) : bool :=
  match List.find (has_number from) t, List.find (has_number to) t with
  | Some r1, Some r2 =>
      (amount <=? balance r1) && bindable r1 r2 amount t
      && (negb sf || negb (exists_account "ACC001" t))
  | _, _ => false
  end.

(** The row with key [k] set to balance [v]. *)
Definition set_at (k v : Z) (r : account) : account :=
  if decide (id r = k) then Orm.with_balance v r else r.

(** The rows after the flush of an ORM transfer that loaded [r1] as source
    and [r2] as destination. *)
Definition orm_settled (r1 r2 : account) (amount : Z) (t : list account)
    : list account :=
  if decide (id r1 = id r2)
  then settle (id r1) (balance r1 - amount) (id r1) (balance r1 - amount + amount) <$> t
  else settle (id r1) (balance r1 - amount) (id r2) (balance r2 + amount) <$> t.

(** The row that the simulated fault of the ORM transfer adds to [rows]. *)
Definition fault_row (sf : bool) (rows : list account) : list account :=
  if sf then [Account (next_id rows) "ACC001" 999] else [].

(** The stores that the ORM script can hand to its transfer: the one its
    seeding leaves, and any store that a transfer or a report leaves. *)
Inductive orm_receivable : world → Prop :=
| receivable_seeded w0 :
    orm_receivable (Orm.setup_accounts_orm_table w0).2
| receivable_transfer w from to amount sf :
    orm_receivable w →
    orm_receivable (Orm.transfer_funds_orm from to amount sf w).2
| receivable_report w :
    orm_receivable w →
    orm_receivable (Orm.get_account_balances_orm w).2.

(** * Properties *)

(** ** Running the monad *)

Lemma for_each_print {A} (l : list A) (f : A → string) (w : world) :
  for_each l (λ x, print (f x)) w = (inr (), put_lines (f <$> l) w).
Proof.
  revert w. induction l as [|x l IH]; intros [t p out j]; simpl.
  - unfold ret, put_lines. simpl. by rewrite app_nil_r.
  - unfold bind, print. simpl. rewrite IH. unfold put_lines. simpl.
    by rewrite <- app_assoc.
Qed.

Lemma get_account_balances_run (w : world) :
  Core.get_account_balances w =
    (inr (), put_lines ("Current account balances:"
                        :: (Core.balance_line <$> order_by_account_number (accounts w))) w).
Proof.
  unfold Core.get_account_balances, bind, execute_select_ordered.
  cbn beta iota delta [print].
  rewrite for_each_print. unfold put_lines. simpl. by rewrite <- app_assoc.
Qed.

(** ** 64-bit integers and SQLite's arithmetic *)

Lemma fits_int64_spec (z : Z) : fits_int64 z = true ↔ int64 z.
Proof. unfold fits_int64, int64. rewrite andb_true_iff, !Z.leb_le. done. Qed.


Lemma fits_int64_true (z : Z) : int64 z → fits_int64 z = true.
Proof. apply fits_int64_spec. Qed.

Lemma sqlite_sub_exact (x y : Z) :
  int64 x → int64 (x - y) → sqlite_sub x y = x - y.
Proof.
  intros Hx Hxy. unfold sqlite_sub.
  by rewrite (fits_int64_true _ Hx), (fits_int64_true _ Hxy).
Qed.

Lemma sqlite_add_exact (x y : Z) :
  int64 x → int64 (x + y) → sqlite_add x y = x + y.
Proof.
  intros Hx Hxy. unfold sqlite_add.
  by rewrite (fits_int64_true _ Hx), (fits_int64_true _ Hxy).
Qed.

Lemma round_double_opp (z : Z) : round_double (- z) = - round_double z.
Proof. unfold round_double. rewrite Z.sgn_opp, Z.abs_opp. lia. Qed.

(** Subtracting [- y] is adding [y], also where the arithmetic is that of
    doubles. *)
Lemma sqlite_sub_opp (x y : Z) : sqlite_sub x (- y) = sqlite_add x y.
Proof.
  unfold sqlite_sub, sqlite_add. rewrite round_double_opp.
  replace (x - - y) with (x + y) by lia.
  replace (round_double x - - round_double y)
    with (round_double x + round_double y) by lia.
  reflexivity.
Qed.

Lemma sqlite_add_opp (x y : Z) : sqlite_add x (- y) = sqlite_sub x y.
Proof.
  rewrite <- (Z.opp_involutive y) at 2. by rewrite sqlite_sub_opp.
Qed.

(** ** Statements of the store *)

Lemma rowcount_zero (n : string) (t : list account) :
  (rowcount n t =? 0) = negb (exists_account n t).
Proof.
  unfold rowcount, exists_account. induction t as [|r t IH]; [reflexivity|].
  rewrite filter_cons. simpl. destruct (has_number n r) eqn:E.
  - rewrite decide_True by done. simpl. reflexivity.
  - rewrite decide_False by done. exact IH.
Qed.

Lemma balance_of_exists (n : string) (t : list account) :
  exists_account n t = true ↔ is_Some (balance_of n t).
Proof.
  unfold exists_account, balance_of. induction t as [|r t IH]; simpl.
  - split; [discriminate | intros [? [=]]].
  - destruct (has_number n r); simpl; [|exact IH]. split; eauto.
Qed.

Lemma balance_of_missing (n : string) (t : list account) :
  exists_account n t = false ↔ balance_of n t = None.
Proof.
  rewrite <- not_true_iff_false, balance_of_exists, eq_None_not_Some. done.
Qed.

Lemma has_number_update_row (m n : string) (f : Z → Z) (r : account) :
  has_number m (update_row n f r) = has_number m r.
Proof. unfold update_row. by destruct (has_number n r). Qed.

Lemma exists_account_update (m n : string) (f : Z → Z) (t : list account) :
  exists_account m (update_row n f <$> t) = exists_account m t.
Proof.
  unfold exists_account. induction t as [|r t IH]; [reflexivity|].
  rewrite fmap_cons. cbn [existsb]. by rewrite has_number_update_row, IH.
Qed.

Lemma rowcount_update (m n : string) (f : Z → Z) (t : list account) :
  (rowcount m (update_row n f <$> t) =? 0) = negb (exists_account m t).
Proof. by rewrite rowcount_zero, exists_account_update. Qed.

(** ** The Core transfer, case by case *)

Ltac run :=
  repeat progress
    (unfold bind, ret, raise, when, try_except, try_finally, with_connection,
       connect, close, begin, autobegin, bind_int, execute_update, execute_insert,
       commit, rollback, set_pending, set_accounts, log_call, visible, print,
       put_lines, Core.transfer_funds, Core.transfer_funds_try,
       Core.transfer_funds_except, Core.not_found, Core.simulated_failure,
       integrity_error, too_large;
     cbn beta iota delta
       [accounts pending stdout journal fst snd List.find isinstance existsb
        issubclass class_of str_exn from_option Datatypes.id orb negb]).

Ltac finish :=
  unfold rolled_back, balances_report, transferring, error_occurred,
    Core.not_found, Core.simulated_failure, integrity_error, too_large;
  cbn [str_exn]; rewrite <- ?app_assoc; cbn [app]; reflexivity.

(** An amount outside the 64-bit range cannot be bound to the first UPDATE:
    the driver raises, and the transfer is rolled back before any row is
    looked at. *)
Lemma transfer_funds_overflow (from to : string) (amount : Z) (sf : bool) (w : world) :
  fits_int64 amount = false →
  Core.transfer_funds from to amount sf w =
    (inr (),
     rolled_back
       [transferring from to amount; "Transaction Started.";
        error_occurred too_large; "Transaction Rolled back."] w).
Proof.
  intros Hfit. run. rewrite Hfit. run.
  rewrite get_account_balances_run. run. finish.
Qed.

Lemma transfer_funds_source_missing (from to : string) (amount : Z) (sf : bool) (w : world) :
  fits_int64 amount = true →
  exists_account from (accounts w) = false →
  Core.transfer_funds from to amount sf w =
    (inr (),
     rolled_back
       [transferring from to amount; "Transaction Started.";
        error_occurred (Core.not_found from); "Transaction Rolled back."] w).
Proof.
  intros Hfit Hfrom. run. rewrite Hfit. run. rewrite rowcount_zero, Hfrom. run.
  rewrite get_account_balances_run. run. finish.
Qed.

Lemma transfer_funds_simulated (from to : string) (amount : Z) (w : world) :
  fits_int64 amount = true →
  exists_account from (accounts w) = true →
  exists_account "ACC999" (accounts w) = false →
  Core.transfer_funds from to amount true w =
    (inr (),
     rolled_back
       [transferring from to amount; "Transaction Started.";
        "Simulating a failure..."; error_occurred Core.simulated_failure;
        "Transaction Rolled back."] w).
Proof.
  intros Hfit Hfrom H999. run. rewrite Hfit. run. rewrite rowcount_zero, Hfrom. run.
  change (fits_int64 1000) with true. run.
  rewrite exists_account_update, H999. run.
  rewrite get_account_balances_run. run. finish.
Qed.

Lemma transfer_funds_simulated_duplicate (from to : string) (amount : Z) (w : world) :
  fits_int64 amount = true →
  exists_account from (accounts w) = true →
  exists_account "ACC999" (accounts w) = true →
  Core.transfer_funds from to amount true w =
    (inr (),
     rolled_back
       [transferring from to amount; "Transaction Started.";
        "Simulating a failure..."; error_occurred (integrity_error "ACC999" 1000);
        "Transaction Rolled back."] w).
Proof.
  intros Hfit Hfrom H999. run. rewrite Hfit. run. rewrite rowcount_zero, Hfrom. run.
  change (fits_int64 1000) with true. run.
  rewrite exists_account_update, H999. run.
  rewrite get_account_balances_run. run. finish.
Qed.

Lemma transfer_funds_destination_missing (from to : string) (amount : Z) (w : world) :
  fits_int64 amount = true →
  exists_account from (accounts w) = true →
  exists_account to (accounts w) = false →
  Core.transfer_funds from to amount false w =
    (inr (),
     rolled_back
       [transferring from to amount; "Transaction Started.";
        "Account " +:+ to +:+ " not found, rolling back transaction.";
        error_occurred (Core.not_found to); "Transaction Rolled back."] w).
Proof.
  intros Hfit Hfrom Hto. run. rewrite Hfit. run. rewrite rowcount_zero, Hfrom. run.
  rewrite ?Hfit. run. rewrite rowcount_update, Hto. run.
  rewrite get_account_balances_run. run. finish.
Qed.

Lemma transfer_funds_committed (from to : string) (amount : Z) (w : world) :
  fits_int64 amount = true →
  exists_account from (accounts w) = true →
  exists_account to (accounts w) = true →
  Core.transfer_funds from to amount false w =
    (inr (),
     World (moved from to amount (accounts w)) None
       (stdout w ++
          [transferring from to amount; "Transaction Started.";
           "Transaction Committed successfully."]
          ++ balances_report (moved from to amount (accounts w)))
       (journal w ++ [Begin; Commit])).
Proof.
  intros Hfit Hfrom Hto. run. rewrite Hfit. run. rewrite rowcount_zero, Hfrom. run.
  rewrite ?Hfit. run. rewrite rowcount_update, Hto. run.
  rewrite get_account_balances_run. run. unfold moved. finish.
Qed.

(** ** The ORM transfer, case by case *)

Ltac run_orm :=
  repeat progress
    (unfold bind, ret, raise, when, try_except, try_finally, connect, close,
       begin, autobegin, bind_int, execute_insert, commit, rollback, set_pending,
       set_accounts, log_call, visible, print, put_lines, integrity_error,
       unique_violation, too_large,
       Orm.with_session, Orm.lift, Orm.query_first, Orm.get_balance,
       Orm.set_balance, Orm.session_add, Orm.flush, Orm.session_commit,
       Orm.session_rollback, Orm.transfer_funds_orm, Orm.transfer_funds_orm_try,
       Orm.transfer_failed, Orm.unexpected_error, Orm.source_not_found,
       Orm.insufficient_funds, Orm.destination_not_found, commit_part;
     cbn beta iota delta
       [accounts pending stdout journal fst snd List.find isinstance existsb
        issubclass class_of str_exn from_option Datatypes.id orb negb
        Orm.identity_map Orm.new for_each app]).

Lemma get_account_balances_orm_run (w : world) :
  Orm.get_account_balances_orm w = (inr (), put_lines (balances_report_orm (accounts w)) w).
Proof.
  unfold Orm.get_account_balances_orm, bind, execute_select_ordered.
  cbn beta iota delta [print].
  rewrite for_each_print. unfold put_lines, balances_report_orm. simpl.
  by rewrite <- app_assoc.
Qed.

(** *** The [try] block up to the commit *)

Lemma try_orm_run_source_missing (from to : string) (amount : Z) (sf : bool)
    (t : list account) (out : list string) (j : list txn_call) :
  List.find (has_number from) t = None →
  Orm.transfer_funds_orm_try from to amount sf (World t None out j, Orm.Session ∅ [])
  = (inl (Orm.source_not_found from),
     (World t (Some t) out (j ++ [Begin]), Orm.Session ∅ [])).
Proof. intros Hfrom. run_orm. rewrite Hfrom. reflexivity. Qed.

Lemma try_orm_run_insufficient (from to : string) (amount : Z) (sf : bool)
    (t : list account) (out : list string) (j : list txn_call) (r : account) :
  List.find (has_number from) t = Some r →
  balance r < amount →
  Orm.transfer_funds_orm_try from to amount sf (World t None out j, Orm.Session ∅ [])
  = (inl (Orm.insufficient_funds from),
     (World t (Some t) out (j ++ [Begin]), Orm.Session (<[id r := r]> ∅) [])).
Proof.
  intros Hfrom Hlt. run_orm. rewrite Hfrom. run_orm.
  rewrite lookup_empty. run_orm. rewrite lookup_insert_eq. run_orm.
  rewrite (proj2 (Z.ltb_lt _ _) Hlt). reflexivity.
Qed.

Lemma try_orm_run_destination_missing (from to : string) (amount : Z) (sf : bool)
    (t : list account) (out : list string) (j : list txn_call) (r : account) :
  List.find (has_number from) t = Some r →
  amount ≤ balance r →
  List.find (has_number to) t = None →
  Orm.transfer_funds_orm_try from to amount sf (World t None out j, Orm.Session ∅ [])
  = (inl (Orm.destination_not_found to),
     (World t (Some t) out (j ++ [Begin]), Orm.Session (<[id r := r]> ∅) [])).
Proof.
  intros Hfrom Hle Hto. run_orm. rewrite Hfrom. run_orm.
  rewrite lookup_empty. run_orm. rewrite lookup_insert_eq. run_orm.
  rewrite (proj2 (Z.ltb_ge _ _) Hle). run_orm. rewrite Hto. reflexivity.
Qed.

Lemma fmap_Some_eq {A B} (f : A → B) (x : A) : f <$> Some x = Some (f x).
Proof. reflexivity. Qed.

Lemma balance_with_balance (v : Z) (o : account) : balance (Orm.with_balance v o) = v.
Proof. reflexivity. Qed.

(** With source and destination found and the funds sufficient, the block
    reaches its commit with both objects loaded and their balances set. *)
Lemma try_orm_run_reaches_commit (from to : string) (amount : Z) (sf : bool)
    (t : list account) (out : list string) (j : list txn_call) (r1 r2 : account) :
  List.find (has_number from) t = Some r1 →
  amount ≤ balance r1 →
  List.find (has_number to) t = Some r2 →
  Orm.transfer_funds_orm_try from to amount sf (World t None out j, Orm.Session ∅ [])
  = commit_part from to sf
      (World t (Some t) out (j ++ [Begin]), Orm.Session (loaded r1 r2 amount) []).
Proof.
  intros Hfrom Hle Hto. unfold loaded.
  destruct (decide (id r1 = id r2)) as [Heq|Hne].
  - unfold dirty_same. run_orm. rewrite Hfrom. run_orm.
    rewrite lookup_empty. run_orm. rewrite lookup_insert_eq. run_orm.
    rewrite (proj2 (Z.ltb_ge _ _) Hle). run_orm. rewrite Hto. run_orm.
    rewrite <- Heq. rewrite lookup_insert_eq. run_orm.
    rewrite lookup_insert_eq. run_orm. rewrite lookup_alter_eq, lookup_insert_eq.
    rewrite fmap_Some_eq. run_orm. rewrite balance_with_balance. reflexivity.
  - unfold dirty. run_orm. rewrite Hfrom. run_orm.
    rewrite lookup_empty. run_orm. rewrite lookup_insert_eq. run_orm.
    rewrite (proj2 (Z.ltb_ge _ _) Hle). run_orm. rewrite Hto. run_orm.
    rewrite lookup_insert_ne by done. rewrite lookup_empty. run_orm.
    rewrite lookup_insert_ne by done. rewrite lookup_insert_eq. run_orm.
    rewrite lookup_alter_ne by done. rewrite lookup_insert_eq. run_orm.
    reflexivity.
Qed.

(** *** The commit *)

Lemma has_number_flush_row (n : string) (im : gmap Z account) (r : account) :
  has_number n (Orm.flush_row im r) = has_number n r.
Proof. unfold Orm.flush_row. by destruct (im !! id r). Qed.

Lemma exists_account_flush (n : string) (im : gmap Z account) (t : list account) :
  exists_account n (Orm.flush_row im <$> t) = exists_account n t.
Proof.
  unfold exists_account. induction t as [|r t IH]; [reflexivity|].
  rewrite fmap_cons. cbn [existsb]. by rewrite has_number_flush_row, IH.
Qed.

(** A new balance outside the 64-bit range cannot be bound to its UPDATE. *)
Lemma commit_part_overflow (from to : string) (sf : bool) (t t' : list account)
    (out : list string) (j : list txn_call) (im : gmap Z account) :
  forallb fits_int64 (Orm.flush_binds im t') = false →
  commit_part from to sf (World t (Some t') out j, Orm.Session im [])
  = (inl too_large,
     (World t (Some t') (out ++ fault_lines sf) j, Orm.Session im (fault_new sf))).
Proof.
  intros Hb. destruct sf; run_orm; rewrite Hb; unfold fault_lines, fault_new;
    rewrite ?app_nil_r; reflexivity.
Qed.

(** The row that the simulated fault adds collides with the row ACC001. *)
Lemma commit_part_duplicate (from to : string) (t t' : list account)
    (out : list string) (j : list txn_call) (im : gmap Z account) :
  forallb fits_int64 (Orm.flush_binds im t') = true →
  exists_account "ACC001" t' = true →
  commit_part from to true (World t (Some t') out j, Orm.Session im [])
  = (inl unique_violation,
     (World t (Some (Orm.flush_row im <$> t')) (out ++ [simulating_orm]) j,
      Orm.Session im [("ACC001", 999)])).
Proof.
  intros Hb Hdup. run_orm. rewrite Hb. run_orm.
  change (fits_int64 999) with true. run_orm.
  rewrite exists_account_flush, Hdup. reflexivity.
Qed.

Lemma commit_part_commits (from to : string) (sf : bool) (t t' : list account)
    (out : list string) (j : list txn_call) (im : gmap Z account) :
  forallb fits_int64 (Orm.flush_binds im t') = true →
  sf = false ∨ exists_account "ACC001" t' = false →
  commit_part from to sf (World t (Some t') out j, Orm.Session im [])
  = (inr (),
     (World ((Orm.flush_row im <$> t') ++ fault_row sf (Orm.flush_row im <$> t')) None
        (out ++ fault_lines sf ++ [successful_line from to]) (j ++ [Commit]),
      Orm.Session ∅ [])).
Proof.
  intros Hb Hsf. destruct sf.
  - destruct Hsf as [|Hdup]; [done|]. run_orm. rewrite Hb. run_orm.
    change (fits_int64 999) with true. run_orm.
    rewrite exists_account_flush, Hdup. run_orm.
    unfold fault_row, fault_lines, successful_line, simulating_orm.
    rewrite <- ?app_assoc. reflexivity.
  - run_orm. rewrite Hb. run_orm.
    unfold fault_row, fault_lines, successful_line.
    rewrite ?app_nil_r. reflexivity.
Qed.

(** *** The handlers and the [finally] clause *)

Ltac run_frame :=
  repeat progress
    (unfold bind, ret, raise, try_except, try_finally, connect, close,
       rollback, set_pending, log_call, print, put_lines,
       Orm.with_session, Orm.lift, Orm.session_rollback, Orm.transfer_funds_orm,
       Orm.transfer_failed, Orm.unexpected_error;
     cbn beta iota delta
       [accounts pending stdout journal fst snd List.find isinstance existsb
        issubclass class_of str_exn orb negb]).

Lemma transfer_funds_orm_raised (from to : string) (amount : Z) (sf : bool)
    (w w2 : world) (s2 : Orm.session) (e : exn) :
  Orm.transfer_funds_orm_try from to amount sf (entered from to sf w, Orm.Session ∅ [])
  = (inl e, (w2, s2)) →
  Orm.transfer_funds_orm from to amount sf w
  = (inr (),
     World (accounts w2) None
       (stdout w2 ++ handler_line e :: balances_report_orm (accounts w2))
       (journal w2 ++ [Rollback])).
Proof.
  unfold entered, attempting. intros Htry. run_frame. rewrite Htry.
  destruct e as [[] msg]; run_frame;
    rewrite get_account_balances_orm_run; run_frame;
    unfold handler_line, transfer_failed_line, unexpected_line;
    cbn [isinstance existsb issubclass class_of str_exn orb];
    rewrite <- ?app_assoc; reflexivity.
Qed.

Lemma transfer_funds_orm_returned (from to : string) (amount : Z) (sf : bool)
    (w w2 : world) (s2 : Orm.session) :
  Orm.transfer_funds_orm_try from to amount sf (entered from to sf w, Orm.Session ∅ [])
  = (inr (), (w2, s2)) →
  Orm.transfer_funds_orm from to amount sf w
  = (inr (),
     World (accounts w2) None
       (stdout w2 ++ balances_report_orm (accounts w2)) (journal w2)).
Proof.
  unfold entered, attempting. intros Htry. run_frame. rewrite Htry. run_frame.
  rewrite get_account_balances_orm_run. run_frame. reflexivity.
Qed.

(** *** The whole transfer *)

Ltac finish_orm :=
  unfold rolled_back_orm, handler_line, transfer_failed_line, unexpected_line,
    fault_lines, Orm.source_not_found, Orm.insufficient_funds,
    Orm.destination_not_found, unique_violation, integrity_error, too_large;
  cbn [accounts stdout journal isinstance existsb issubclass class_of str_exn orb];
  rewrite <- ?app_assoc; cbn [app]; reflexivity.

Lemma transfer_funds_orm_source_missing (from to : string) (amount : Z) (sf : bool) (w : world) :
  List.find (has_number from) (accounts w) = None →
  Orm.transfer_funds_orm from to amount sf w =
    (inr (),
     rolled_back_orm
       [attempting from to sf; transfer_failed_line (Orm.source_not_found from)] w).
Proof.
  intros Hfrom.
  rewrite (transfer_funds_orm_raised _ _ _ _ _ _ _ _
             (try_orm_run_source_missing _ _ _ _ _ _ _ Hfrom)).
  finish_orm.
Qed.

Lemma transfer_funds_orm_insufficient (from to : string) (amount : Z) (sf : bool)
    (w : world) (r : account) :
  List.find (has_number from) (accounts w) = Some r →
  balance r < amount →
  Orm.transfer_funds_orm from to amount sf w =
    (inr (),
     rolled_back_orm
       [attempting from to sf; transfer_failed_line (Orm.insufficient_funds from)] w).
Proof.
  intros Hfrom Hlt.
  rewrite (transfer_funds_orm_raised _ _ _ _ _ _ _ _
             (try_orm_run_insufficient _ _ _ _ _ _ _ _ Hfrom Hlt)).
  finish_orm.
Qed.

Lemma transfer_funds_orm_destination_missing (from to : string) (amount : Z) (sf : bool)
    (w : world) (r : account) :
  List.find (has_number from) (accounts w) = Some r →
  amount ≤ balance r →
  List.find (has_number to) (accounts w) = None →
  Orm.transfer_funds_orm from to amount sf w =
    (inr (),
     rolled_back_orm
       [attempting from to sf; transfer_failed_line (Orm.destination_not_found to)] w).
Proof.
  intros Hfrom Hle Hto.
  rewrite (transfer_funds_orm_raised _ _ _ _ _ _ _ _
             (try_orm_run_destination_missing _ _ _ _ _ _ _ _ Hfrom Hle Hto)).
  finish_orm.
Qed.

(** A new balance that does not fit in 64 bits: the [OverflowError] of the
    flush is caught by the second [except] clause, and the transfer is
    rolled back. *)
Lemma transfer_funds_orm_overflow (from to : string) (amount : Z) (sf : bool)
    (w : world) (r1 r2 : account) :
  List.find (has_number from) (accounts w) = Some r1 →
  amount ≤ balance r1 →
  List.find (has_number to) (accounts w) = Some r2 →
  bindable r1 r2 amount (accounts w) = false →
  Orm.transfer_funds_orm from to amount sf w =
    (inr (),
     rolled_back_orm
       ([attempting from to sf] ++ fault_lines sf ++ [unexpected_line too_large]) w).
Proof.
  intros Hfrom Hle Hto Hb.
  erewrite transfer_funds_orm_raised.
  2: { unfold entered. rewrite (try_orm_run_reaches_commit _ _ _ _ _ _ _ _ _ Hfrom Hle Hto).
       by apply commit_part_overflow. }
  destruct sf; finish_orm.
Qed.

Lemma transfer_funds_orm_fault_duplicate (from to : string) (amount : Z)
    (w : world) (r1 r2 : account) :
  List.find (has_number from) (accounts w) = Some r1 →
  amount ≤ balance r1 →
  List.find (has_number to) (accounts w) = Some r2 →
  bindable r1 r2 amount (accounts w) = true →
  exists_account "ACC001" (accounts w) = true →
  Orm.transfer_funds_orm from to amount true w =
    (inr (),
     rolled_back_orm
       [attempting from to true; simulating_orm; transfer_failed_line unique_violation] w).
Proof.
  intros Hfrom Hle Hto Hb Hdup.
  erewrite transfer_funds_orm_raised.
  2: { unfold entered. rewrite (try_orm_run_reaches_commit _ _ _ _ _ _ _ _ _ Hfrom Hle Hto).
       by apply commit_part_duplicate. }
  finish_orm.
Qed.

Lemma flush_row_dirty (r1 r2 : account) (amount : Z) (r : account) :
  id r1 ≠ id r2 →
  Orm.flush_row (dirty r1 r2 amount) r =
    settle (id r1) (balance r1 - amount) (id r2) (balance r2 + amount) r.
Proof.
  intros Hne. unfold Orm.flush_row, settle, dirty.
  rewrite !lookup_alter, !lookup_insert, lookup_empty.
  repeat case_decide; simplify_eq; try done.
Qed.

Lemma flush_row_dirty_same (r1 : account) (amount : Z) (r : account) :
  Orm.flush_row (dirty_same r1 amount) r =
    settle (id r1) (balance r1 - amount) (id r1) (balance r1 - amount + amount) r.
Proof.
  unfold Orm.flush_row, settle, dirty_same.
  rewrite !lookup_alter, !lookup_insert, lookup_empty.
  repeat case_decide; simplify_eq; done.
Qed.

Lemma fmap_ext_all {A B} (f g : A → B) (l : list A) :
  (∀ x, f x = g x) → f <$> l = g <$> l.
Proof. intros H. induction l as [|x l IH]; [done|]. by rewrite !fmap_cons, H, IH. Qed.

Lemma flush_row_loaded (r1 r2 : account) (amount : Z) (t : list account) :
  Orm.flush_row (loaded r1 r2 amount) <$> t = orm_settled r1 r2 amount t.
Proof.
  unfold loaded, orm_settled. destruct (decide (id r1 = id r2)) as [Heq|Hne].
  - apply fmap_ext_all, flush_row_dirty_same.
  - apply fmap_ext_all. intros r. by apply flush_row_dirty.
Qed.

(** The transfer that reaches its commit and meets no violation commits; the
    row of the simulated fault, if any, is stored with the new balances. *)
Lemma transfer_funds_orm_committed (from to : string) (amount : Z) (sf : bool)
    (w : world) (r1 r2 : account) :
  List.find (has_number from) (accounts w) = Some r1 →
  amount ≤ balance r1 →
  List.find (has_number to) (accounts w) = Some r2 →
  bindable r1 r2 amount (accounts w) = true →
  sf = false ∨ exists_account "ACC001" (accounts w) = false →
  Orm.transfer_funds_orm from to amount sf w =
    (inr (),
     committed_orm
       (orm_settled r1 r2 amount (accounts w)
        ++ fault_row sf (orm_settled r1 r2 amount (accounts w)))
       ([attempting from to sf] ++ fault_lines sf ++ [successful_line from to]) w).
Proof.
  intros Hfrom Hle Hto Hb Hsf.
  erewrite transfer_funds_orm_returned.
  2: { unfold entered. rewrite (try_orm_run_reaches_commit _ _ _ _ _ _ _ _ _ Hfrom Hle Hto).
       by apply commit_part_commits. }
  unfold committed_orm. cbn [accounts stdout journal].
  rewrite flush_row_loaded. rewrite <- ?app_assoc. reflexivity.
Qed.

(** ** Observing balances *)

Lemma find_fmap_preserving {f : account → account} (n : string) (t : list account) :
  (∀ r, has_number n (f r) = has_number n r) →
  List.find (has_number n) (f <$> t) = f <$> List.find (has_number n) t.
Proof.
  intros Hf. induction t as [|r t IH]; [reflexivity|].
  rewrite fmap_cons. cbn [List.find]. rewrite Hf.
  destruct (has_number n r); [reflexivity | exact IH].
Qed.

Lemma find_has_number (n : string) (t : list account) (r : account) :
  List.find (has_number n) t = Some r → r ∈ t ∧ account_number r = n.
Proof.
  intros H. apply find_some in H as [Hin Hn]. split.
  - by apply list_elem_of_In.
  - by apply String.eqb_eq.
Qed.

Lemma balance_of_find (n : string) (t : list account) (b : Z) :
  balance_of n t = Some b ↔ ∃ r, List.find (has_number n) t = Some r ∧ balance r = b.
Proof.
  unfold balance_of. destruct (List.find (has_number n) t) as [r|]; simpl.
  - split; [intros [= <-]; eauto | intros (r' & [= <-] & <-); done].
  - split; [discriminate | intros (r' & [=] & _)].
Qed.

Lemma find_balance_of (n : string) (t : list account) (r : account) :
  List.find (has_number n) t = Some r → balance_of n t = Some (balance r).
Proof. intros H. apply balance_of_find. eauto. Qed.

Lemma find_exists (n : string) (t : list account) (r : account) :
  List.find (has_number n) t = Some r → exists_account n t = true.
Proof.
  intros H. apply balance_of_exists. unfold balance_of. rewrite H. by eexists.
Qed.

Lemma find_missing (n : string) (t : list account) :
  List.find (has_number n) t = None ↔ exists_account n t = false.
Proof.
  rewrite balance_of_missing. unfold balance_of.
  destruct (List.find (has_number n) t); simpl; split; done.
Qed.

Lemma balance_of_update_eq (n : string) (f : Z → Z) (t : list account) :
  balance_of n (update_row n f <$> t) = f <$> balance_of n t.
Proof.
  unfold balance_of.
  rewrite find_fmap_preserving by (intros; apply has_number_update_row).
  destruct (List.find (has_number n) t) as [r|] eqn:E; [|reflexivity]. simpl.
  apply find_some in E as [_ E]. unfold update_row. by rewrite E.
Qed.

Lemma balance_of_update_ne (m n : string) (f : Z → Z) (t : list account) :
  m ≠ n → balance_of m (update_row n f <$> t) = balance_of m t.
Proof.
  intros Hne. unfold balance_of.
  rewrite find_fmap_preserving by (intros; apply has_number_update_row).
  destruct (List.find (has_number m) t) as [r|] eqn:E; [|reflexivity]. simpl.
  apply find_has_number in E as [_ E]. unfold update_row, has_number.
  rewrite E. by rewrite (proj2 (String.eqb_neq m n) Hne).
Qed.


Lemma moved_exactly_balances (from to : string) (amount : Z) (t : list account)
    (b1 b2 : Z) :
  from ≠ to →
  balance_of from t = Some b1 →
  balance_of to t = Some b2 →
  balance_of from (moved_exactly from to amount t) = Some (b1 - amount)
  ∧ balance_of to (moved_exactly from to amount t) = Some (b2 + amount).
Proof.
  intros Hne H1 H2. unfold moved_exactly. split.
  - rewrite balance_of_update_ne by done. by rewrite balance_of_update_eq, H1.
  - rewrite balance_of_update_eq, balance_of_update_ne by done. by rewrite H2.
Qed.

Lemma primary_key_inj (t : list account) (r r' : account) :
  primary_key t → r ∈ t → r' ∈ t → id r = id r' → r = r'.
Proof.
  unfold primary_key. induction t as [|x t IH]; intros Hnd Hr Hr' Heq.
  - by apply elem_of_nil in Hr.
  - rewrite fmap_cons in Hnd. apply NoDup_cons in Hnd as [Hx Hnd].
    apply elem_of_cons in Hr as [->|Hr]; apply elem_of_cons in Hr' as [->|Hr'].
    + done.
    + exfalso. apply Hx. rewrite Heq. by apply list_elem_of_fmap_2.
    + exfalso. apply Hx. rewrite <- Heq. by apply list_elem_of_fmap_2.
    + by apply IH.
Qed.

Lemma unique_numbers_inj (t : list account) (r r' : account) :
  unique_numbers t → r ∈ t → r' ∈ t → account_number r = account_number r' → r = r'.
Proof.
  unfold unique_numbers. induction t as [|x t IH]; intros Hnd Hr Hr' Heq.
  - by apply elem_of_nil in Hr.
  - rewrite fmap_cons in Hnd. apply NoDup_cons in Hnd as [Hx Hnd].
    apply elem_of_cons in Hr as [->|Hr]; apply elem_of_cons in Hr' as [->|Hr'].
    + done.
    + exfalso. apply Hx. rewrite Heq. by apply list_elem_of_fmap_2.
    + exfalso. apply Hx. rewrite <- Heq. by apply list_elem_of_fmap_2.
    + by apply IH.
Qed.

(** With unique account numbers, the balance found for the number of a row
    is the balance of that row. *)
Lemma balance_of_unique (t : list account) (r : account) :
  unique_numbers t → r ∈ t → balance_of (account_number r) t = Some (balance r).
Proof.
  intros Hun Hr. unfold balance_of.
  destruct (List.find (has_number (account_number r)) t) as [r'|] eqn:E.
  - destruct (find_has_number _ _ _ E) as [Hin Hn].
    by rewrite (unique_numbers_inj t r' r Hun Hin Hr Hn).
  - exfalso. apply find_missing in E. apply not_true_iff_false in E. apply E.
    apply existsb_exists. exists r. split; [by apply list_elem_of_In|].
    apply String.eqb_refl.
Qed.

Lemma has_number_settle (n : string) (k1 v1 k2 v2 : Z) (r : account) :
  has_number n (settle k1 v1 k2 v2 r) = has_number n r.
Proof. unfold settle. by repeat case_decide. Qed.

Lemma balance_of_settle (n : string) (k1 v1 k2 v2 : Z) (t : list account) :
  balance_of n (settle k1 v1 k2 v2 <$> t)
  = (λ r, balance (settle k1 v1 k2 v2 r)) <$> List.find (has_number n) t.
Proof.
  unfold balance_of.
  rewrite find_fmap_preserving by (intros; apply has_number_settle).
  by destruct (List.find (has_number n) t).
Qed.

Lemma settled_balances (from to : string) (r1 r2 : account) (amount : Z) (t : list account) :
  primary_key t →
  from ≠ to →
  List.find (has_number from) t = Some r1 →
  List.find (has_number to) t = Some r2 →
  let t' := settle (id r1) (balance r1 - amount) (id r2) (balance r2 + amount) <$> t in
  id r1 ≠ id r2
  ∧ balance_of from t' = Some (balance r1 - amount)
  ∧ balance_of to t' = Some (balance r2 + amount)
  ∧ ∀ n, n ≠ from → n ≠ to → balance_of n t' = balance_of n t.
Proof.
  intros Hpk Hne H1 H2 t'.
  destruct (find_has_number _ _ _ H1) as [Hin1 Hn1].
  destruct (find_has_number _ _ _ H2) as [Hin2 Hn2].
  assert (Hid : id r1 ≠ id r2).
  { intros Heq. apply Hne. rewrite <- Hn1, <- Hn2.
    by rewrite (primary_key_inj t r1 r2 Hpk Hin1 Hin2 Heq). }
  subst t'. split; [exact Hid|]. repeat split.
  - rewrite balance_of_settle, H1. simpl. unfold settle.
    rewrite decide_False by done. by rewrite decide_True.
  - rewrite balance_of_settle, H2. simpl. unfold settle. by rewrite decide_True.
  - intros n Hna Hnb. rewrite balance_of_settle. unfold balance_of.
    destruct (List.find (has_number n) t) as [r|] eqn:E; [|reflexivity]. simpl.
    destruct (find_has_number _ _ _ E) as [Hin Hn]. unfold settle.
    rewrite decide_False, decide_False; [done| |].
    + intros Heq. apply Hna. rewrite <- Hn, <- Hn1.
      by rewrite (primary_key_inj t r r1 Hpk Hin Hin1 Heq).
    + intros Heq. apply Hnb. rewrite <- Hn, <- Hn2.
      by rewrite (primary_key_inj t r r2 Hpk Hin Hin2 Heq).
Qed.

Lemma settle_same (r1 : account) (amount : Z) (t : list account) :
  primary_key t → r1 ∈ t →
  settle (id r1) (balance r1 - amount) (id r1) (balance r1 - amount + amount) <$> t = t.
Proof.
  intros Hpk Hin. rewrite <- (list_fmap_id t) at 2. apply list_fmap_ext.
  intros i r Hr. unfold settle. case_decide as Heq; [|done].
  assert (r = r1) as ->.
  { apply (primary_key_inj t); [done| |done..]. by eapply list_elem_of_lookup_2. }
  destruct r1 as [k m b]. unfold Orm.with_balance. simpl. f_equal. lia.
Qed.

Lemma balance_of_app_existing (n : string) (t extra : list account) (b : Z) :
  balance_of n t = Some b → balance_of n (t ++ extra) = Some b.
Proof.
  unfold balance_of. induction t as [|r t IH]; [discriminate|].
  simpl. destruct (has_number n r); [done | exact IH].
Qed.


(** ** Transfers within the 64-bit range *)

(** What [keeps_int64] says of the rows of a table with unique account
    numbers. *)
Lemma keeps_int64_rows (from to : string) (amount : Z) (t : list account) (r : account) :
  unique_numbers t → keeps_int64 from to amount t → r ∈ t →
  (account_number r = from → int64 (balance r - amount))
  ∧ (account_number r = to → int64 (balance r + amount)).
Proof.
  intros Hun [Hf Ht] Hr.
  split; intros <-; [apply Hf | apply Ht]; by apply balance_of_unique.
Qed.

Ltac exact_arith :=
  repeat match goal with
         | |- context [sqlite_sub ?x ?y] =>
             rewrite (sqlite_sub_exact x y) by (unfold int64 in *; lia)
         | |- context [sqlite_add ?x ?y] =>
             rewrite (sqlite_add_exact x y) by (unfold int64 in *; lia)
         end.

Ltac split_numbers row_number :=
  repeat match goal with
         | |- context [String.eqb row_number ?n] =>
             destruct (String.eqb_spec row_number n); cbn [id account_number balance]
         end.

(** Row by row: the rows are those of [t]; of each the balance is a 64-bit
    integer, and so are the debited balance of a row numbered [from] and the
    credited balance of a row numbered [to]. *)
Ltac by_rows_in Hun Hint Hkeep :=
  unfold moved, moved_exactly; rewrite <- ?list_fmap_compose;
  apply list_fmap_ext;
  let i := fresh "i" in
  let r := fresh "row" in
  let Hr := fresh "Hrow" in
  intros i r Hr; apply list_elem_of_lookup_2 in Hr;
  let Hb := fresh "Hb" in
  let Hs := fresh "Hs" in
  let Ht := fresh "Ht" in
  pose proof (Hint r Hr) as Hb;
  destruct (keeps_int64_rows _ _ _ _ r Hun Hkeep Hr) as [Hs Ht];
  destruct r as [row_id row_number row_balance];
  unfold compose, update_row, has_number, Datatypes.id;
  cbn [id account_number balance] in *;
  split_numbers row_number;
  repeat match goal with
         | H : ?a = ?a → _ |- _ => specialize (H eq_refl)
         | H : ?a = ?b → _, E : ?a = ?b |- _ => specialize (H E)
         end;
  subst; try congruence; exact_arith; try congruence;
  try (f_equal; unfold int64 in *; lia).

(** Within the range SQLite's arithmetic is the exact one. *)
Lemma moved_in_range (from to : string) (amount : Z) (t : list account) :
  unique_numbers t → int64_table t → keeps_int64 from to amount t →
  moved from to amount t = moved_exactly from to amount t.
Proof. intros Hun Hint Hkeep. by_rows_in Hun Hint Hkeep. Qed.

(** Exact arithmetic, row by row. *)
Ltac by_rows :=
  unfold moved_exactly; rewrite <- ?list_fmap_compose; apply fmap_ext_all;
  intros [row_id row_number row_balance];
  unfold compose, update_row, has_number, Datatypes.id;
  cbn [id account_number balance];
  repeat match goal with
         | |- context [String.eqb row_number ?n] =>
             destruct (String.eqb row_number n) eqn:?;
             cbn [id account_number balance]
         end;
  try congruence; f_equal; lia.

Lemma moved_exactly_same (n : string) (amount : Z) (t : list account) :
  moved_exactly n n amount t = t.
Proof. rewrite <- (list_fmap_id t) at 2. by_rows. Qed.

Lemma moved_exactly_back (from to : string) (amount : Z) (t : list account) :
  moved_exactly to from amount (moved_exactly from to amount t) = t.
Proof. rewrite <- (list_fmap_id t) at 2. by_rows. Qed.

Lemma moved_exactly_twice (from to : string) (a b : Z) (t : list account) :
  moved_exactly from to b (moved_exactly from to a t) = moved_exactly from to (a + b) t.
Proof. by_rows. Qed.

Lemma moved_exactly_zero (from to : string) (t : list account) :
  moved_exactly from to 0 t = t.
Proof. rewrite <- (list_fmap_id t) at 2. by_rows. Qed.

Lemma id_update_row (n : string) (f : Z → Z) (t : list account) :
  id <$> (update_row n f <$> t) = id <$> t
  ∧ account_number <$> (update_row n f <$> t) = account_number <$> t.
Proof.
  rewrite <- !list_fmap_compose.
  split; apply fmap_ext_all; intros r; unfold compose, update_row;
    by destruct (has_number n r).
Qed.

Lemma id_moved (from to : string) (amount : Z) (t : list account) :
  id <$> moved from to amount t = id <$> t
  ∧ account_number <$> moved from to amount t = account_number <$> t.
Proof.
  unfold moved.
  destruct (id_update_row to (λ b, sqlite_add b amount)
              (update_row from (λ b, sqlite_sub b amount) <$> t)) as [-> ->].
  apply id_update_row.
Qed.

Lemma id_moved_exactly (from to : string) (amount : Z) (t : list account) :
  id <$> moved_exactly from to amount t = id <$> t
  ∧ account_number <$> moved_exactly from to amount t = account_number <$> t.
Proof.
  unfold moved_exactly.
  destruct (id_update_row to (λ b, b + amount)
              (update_row from (λ b, b - amount) <$> t)) as [-> ->].
  apply id_update_row.
Qed.

Lemma unique_numbers_moved_exactly (from to : string) (amount : Z) (t : list account) :
  unique_numbers t → unique_numbers (moved_exactly from to amount t).
Proof. unfold unique_numbers. by destruct (id_moved_exactly from to amount t) as [_ ->]. Qed.

Lemma exists_account_moved (n from to : string) (amount : Z) (t : list account) :
  exists_account n (moved from to amount t) = exists_account n t.
Proof. unfold moved. by rewrite !exists_account_update. Qed.

Lemma exists_account_moved_exactly (n from to : string) (amount : Z) (t : list account) :
  exists_account n (moved_exactly from to amount t) = exists_account n t.
Proof. unfold moved_exactly. by rewrite !exists_account_update. Qed.

(** The rows after an exact transfer are 64-bit integers when the balances
    it writes are. *)
Lemma int64_table_moved_exactly (from to : string) (amount : Z) (t : list account) :
  unique_numbers t → int64_table t → keeps_int64 from to amount t →
  int64_table (moved_exactly from to amount t).
Proof.
  intros Hun Hint Hkeep r' Hr'. unfold moved_exactly in Hr'.
  rewrite <- list_fmap_compose in Hr'.
  apply list_elem_of_fmap in Hr' as (r & -> & Hr).
  pose proof (Hint r Hr) as Hb.
  destruct (keeps_int64_rows _ _ _ _ r Hun Hkeep Hr) as [Hs Ht].
  destruct r as [row_id row_number row_balance].
  unfold compose, update_row, has_number.
  cbn [id account_number balance] in *.
  split_numbers row_number;
    repeat match goal with
           | H : ?a = ?a → _ |- _ => specialize (H eq_refl)
           | H : ?a = ?b → _, E : ?a = ?b |- _ => specialize (H E)
           end;
    subst; cbn [balance]; try done; try congruence.
  unfold int64 in *. lia.
Qed.

(** ** When the flush of the ORM transfer can bind its balances *)

Lemma flush_binds_fit (im : gmap Z account) (t : list account) :
  (∀ r o, r ∈ t → im !! id r = Some o → balance o = balance r ∨ int64 (balance o)) →
  forallb fits_int64 (Orm.flush_binds im t) = true.
Proof.
  intros H. apply forallb_forall. intros v Hv. apply list_elem_of_In in Hv.
  unfold Orm.flush_binds in Hv. apply list_elem_of_omap in Hv as (r & Hr & Hv).
  destruct (im !! id r) as [o|] eqn:Ho; [|done].
  destruct (Z.eqb_spec (balance o) (balance r)) as [Heq|Hne]; [done|].
  injection Hv as <-. apply fits_int64_true.
  destruct (H r o Hr Ho); done.
Qed.

Lemma loaded_lookup (r1 r2 : account) (amount : Z) (k : Z) (o : account) :
  loaded r1 r2 amount !! k = Some o →
  (id r1 = id r2 ∧ k = id r1 ∧ balance o = balance r1 - amount + amount)
  ∨ (id r1 ≠ id r2
     ∧ ((k = id r1 ∧ balance o = balance r1 - amount)
        ∨ (k = id r2 ∧ balance o = balance r2 + amount))).
Proof.
  unfold loaded, dirty, dirty_same. case_decide as Hid.
  - destruct (decide (k = id r1)) as [->|Hk].
    + rewrite !lookup_alter_eq, lookup_insert_eq. simpl. intros [= <-]. left. auto.
    + rewrite !lookup_alter_ne, lookup_insert_ne, lookup_empty by done. done.
  - destruct (decide (k = id r1)) as [->|Hk1]; [|destruct (decide (k = id r2)) as [->|Hk2]].
    + rewrite lookup_alter_ne, lookup_alter_eq, lookup_insert_ne, lookup_insert_eq by done.
      simpl. intros [= <-]. right. auto.
    + rewrite lookup_alter_eq, lookup_alter_ne, lookup_insert_eq by done.
      simpl. intros [= <-]. right. auto.
    + rewrite !lookup_alter_ne, !lookup_insert_ne, lookup_empty by done. done.
Qed.

(** New balances within the range can be bound. *)
Lemma bindable_int64 (r1 r2 : account) (amount : Z) (t : list account) :
  int64 (balance r1) → int64 (balance r1 - amount) → int64 (balance r2 + amount) →
  bindable r1 r2 amount t = true.
Proof.
  intros H1 H1' H2'. apply flush_binds_fit. intros r o _ Ho. right.
  apply loaded_lookup in Ho as [(_ & _ & ->)|(_ & [[_ ->]|[_ ->]])];
    [unfold int64 in *; lia | done..].
Qed.

(** On a table whose ids are distinct, a transfer from an account to itself
    changes no balance, so nothing is bound. *)
Lemma bindable_same (r1 r2 : account) (amount : Z) (t : list account) :
  primary_key t → r1 ∈ t → id r1 = id r2 →
  bindable r1 r2 amount t = true.
Proof.
  intros Hpk Hin Hid. apply flush_binds_fit. intros r o Hr Ho. left.
  apply loaded_lookup in Ho as [(_ & Hk & ->)|(Hne & _)]; [|done].
  rewrite (primary_key_inj t r r1 Hpk Hr Hin Hk). lia.
Qed.

(** Nor does a transfer of zero. *)
Lemma bindable_zero (r1 r2 : account) (t : list account) :
  primary_key t → r1 ∈ t → r2 ∈ t →
  bindable r1 r2 0 t = true.
Proof.
  intros Hpk Hin1 Hin2. apply flush_binds_fit. intros r o Hr Ho. left.
  apply loaded_lookup in Ho as [(_ & Hk & ->)|(_ & [[Hk ->]|[Hk ->]])].
  - rewrite (primary_key_inj t r r1 Hpk Hr Hin1 Hk). lia.
  - rewrite (primary_key_inj t r r1 Hpk Hr Hin1 Hk). lia.
  - rewrite (primary_key_inj t r r2 Hpk Hr Hin2 Hk). lia.
Qed.

(** ** What a run of a transfer did *)

Lemma commit_is_not_rollback (j : list txn_call) :
  j ++ [Begin; Rollback] ≠ j ++ [Begin; Commit].
Proof. intros H. by apply app_inv_head in H. Qed.

Ltac listed :=
  cbn [app]; repeat first [apply list_elem_of_here | apply list_elem_of_further].

Lemma printed_app (m : M world unit) (w : world) (lines : list string) :
  stdout (m w).2 = stdout w ++ lines → printed m w = lines.
Proof. intros H. unfold printed. rewrite H. apply drop_app_length. Qed.

Lemma core_cases (from to : string) (amount : Z) (sf : bool) (w : world) :
  core_case from to amount sf w.
Proof.
  destruct (fits_int64 amount) eqn:Hfit; [|by apply core_overflow].
  destruct (exists_account from (accounts w)) eqn:H1;
    [|by apply core_source_missing].
  destruct sf.
  - destruct (exists_account "ACC999" (accounts w)) eqn:H2;
      [by apply core_simulated_duplicate | by apply core_simulated].
  - destruct (exists_account to (accounts w)) eqn:H2;
      [by apply core_committed | by apply core_destination_missing].
Qed.

(** The outcome of a Core transfer in one equation. *)
Lemma transfer_funds_outcome (from to : string) (amount : Z) (sf : bool) (w : world) :
  (core_accepts from to amount sf (accounts w) = false
   ∧ ∃ lines, Core.transfer_funds from to amount sf w = (inr (), rolled_back lines w))
  ∨ (core_accepts from to amount sf (accounts w) = true
     ∧ ∃ lines,
         Core.transfer_funds from to amount sf w
         = (inr (),
            World (moved from to amount (accounts w)) None
              (stdout w ++ lines ++ balances_report (moved from to amount (accounts w)))
              (journal w ++ [Begin; Commit]))).
Proof.
  unfold core_accepts.
  destruct (core_cases from to amount sf w)
    as [Hf|Hf H|Hf H H1 H2|Hf H H1 H2|Hf H H1 H2|Hf H H1 H2]; subst; rewrite Hf.
  - left. split; [done|]. eexists. by apply transfer_funds_overflow.
  - left. rewrite H, andb_false_r. split; [done|].
    eexists. by apply transfer_funds_source_missing.
  - left. split; [done|]. eexists. by apply transfer_funds_simulated.
  - left. split; [done|]. eexists. by apply transfer_funds_simulated_duplicate.
  - left. rewrite H2, andb_false_r. split; [done|].
    eexists. by apply transfer_funds_destination_missing.
  - right. rewrite H1, H2. split; [done|].
    eexists. by apply transfer_funds_committed.
Qed.

Lemma transfer_funds_accounts (from to : string) (amount : Z) (sf : bool) (w : world) :
  accounts (Core.transfer_funds from to amount sf w).2
  = if core_accepts from to amount sf (accounts w)
    then moved from to amount (accounts w) else accounts w.
Proof.
  destruct (transfer_funds_outcome from to amount sf w)
    as [[-> [lines ->]]|[-> [lines ->]]]; reflexivity.
Qed.

Lemma core_accepts_spec (from to : string) (amount : Z) (sf : bool) (t : list account) :
  core_accepts from to amount sf t = true ↔
    int64 amount ∧ sf = false
    ∧ is_Some (balance_of from t) ∧ is_Some (balance_of to t).
Proof.
  unfold core_accepts.
  rewrite !andb_true_iff, negb_true_iff, !balance_of_exists, fits_int64_spec.
  tauto.
Qed.

Lemma transfer_funds_returns (from to : string) (amount : Z) (sf : bool) (w : world) :
  returns (Core.transfer_funds from to amount sf) w.
Proof.
  unfold returns.
  destruct (transfer_funds_outcome from to amount sf w)
    as [[_ [lines ->]]|[_ [lines ->]]]; reflexivity.
Qed.

(** A Core transfer commits exactly when its amount can be bound, both
    accounts exist and no fault is simulated; otherwise the committed rows
    are left as they were. *)
Lemma transfer_funds_commits_iff (from to : string) (amount : Z) (sf : bool) (w : world) :
  commits (Core.transfer_funds from to amount sf) w ↔
    core_accepts from to amount sf (accounts w) = true.
Proof.
  unfold commits.
  destruct (transfer_funds_outcome from to amount sf w)
    as [[Ha [lines ->]]|[Ha [lines ->]]]; rewrite Ha.
  - split; [|done]. cbn. intros E. by apply commit_is_not_rollback in E.
  - done.
Qed.

Lemma transfer_funds_not_committed (from to : string) (amount : Z) (sf : bool) (w : world) :
  ¬ commits (Core.transfer_funds from to amount sf) w →
  accounts (Core.transfer_funds from to amount sf w).2 = accounts w
  ∧ rolls_back (Core.transfer_funds from to amount sf) w.
Proof.
  rewrite transfer_funds_commits_iff. unfold rolls_back.
  destruct (transfer_funds_outcome from to amount sf w)
    as [[Ha [lines ->]]|[Ha [lines ->]]]; [done | congruence].
Qed.

Lemma core_simulated_fault_restores (from to : string) (amount : Z) (w : world) :
  accounts (Core.transfer_funds from to amount true w).2 = accounts w
  ∧ rolls_back (Core.transfer_funds from to amount true) w.
Proof.
  apply transfer_funds_not_committed. rewrite transfer_funds_commits_iff.
  unfold core_accepts. by rewrite andb_false_r.
Qed.

(** ** What leaves the [try] block *)


Lemma try_source_missing (from to : string) (amount : Z) (sf : bool) (w : world) :
  fits_int64 amount = true →
  exists_account from (accounts w) = false →
  raised_in_try from to amount sf w = inl (Core.not_found from).
Proof.
  intros Hfit H. unfold raised_in_try. run. rewrite Hfit. run.
  by rewrite rowcount_zero, H.
Qed.




Lemma try_orm_source_missing (from to : string) (amount : Z) (sf : bool) (w : world) :
  List.find (has_number from) (accounts w) = None →
  raised_in_try_orm from to amount sf w = inl (Orm.source_not_found from).
Proof.
  intros H. unfold raised_in_try_orm, set_pending.
  by rewrite (try_orm_run_source_missing _ _ _ _ _ _ _ H).
Qed.

Lemma try_orm_insufficient (from to : string) (amount : Z) (sf : bool)
    (w : world) (r : account) :
  List.find (has_number from) (accounts w) = Some r →
  balance r < amount →
  raised_in_try_orm from to amount sf w = inl (Orm.insufficient_funds from).
Proof.
  intros H Hlt. unfold raised_in_try_orm, set_pending.
  by rewrite (try_orm_run_insufficient _ _ _ _ _ _ _ _ H Hlt).
Qed.


Lemma try_orm_fault_duplicate (from to : string) (amount : Z)
    (w : world) (r1 r2 : account) :
  List.find (has_number from) (accounts w) = Some r1 →
  amount ≤ balance r1 →
  List.find (has_number to) (accounts w) = Some r2 →
  bindable r1 r2 amount (accounts w) = true →
  exists_account "ACC001" (accounts w) = true →
  raised_in_try_orm from to amount true w = inl unique_violation.
Proof.
  intros Hfrom Hle Hto Hb Hdup. unfold raised_in_try_orm, set_pending.
  rewrite (try_orm_run_reaches_commit _ _ _ _ _ _ _ _ _ Hfrom Hle Hto).
  by rewrite commit_part_duplicate.
Qed.

(** ** The outcome of an ORM transfer in one equation *)

Lemma transfer_funds_orm_outcome (from to : string) (amount : Z) (sf : bool) (w : world) :
  (orm_accepts from to amount sf (accounts w) = false
   ∧ ∃ lines, Orm.transfer_funds_orm from to amount sf w
              = (inr (), rolled_back_orm lines w))
  ∨ (orm_accepts from to amount sf (accounts w) = true
     ∧ ∃ r1 r2 lines,
         List.find (has_number from) (accounts w) = Some r1
         ∧ List.find (has_number to) (accounts w) = Some r2
         ∧ amount ≤ balance r1
         ∧ Orm.transfer_funds_orm from to amount sf w
           = (inr (),
              committed_orm
                (orm_settled r1 r2 amount (accounts w)
                 ++ fault_row sf (orm_settled r1 r2 amount (accounts w)))
                lines w)).
Proof.
  unfold orm_accepts.
  destruct (List.find (has_number from) (accounts w)) as [r1|] eqn:H1.
  2: { left. split; [done|]. eexists. by apply transfer_funds_orm_source_missing. }
  destruct (Z.lt_ge_cases (balance r1) amount) as [Hlt|Hle].
  { left. rewrite (proj2 (Z.leb_gt _ _) Hlt).
    split; [by destruct (List.find (has_number to) (accounts w))|].
    eexists. by eapply transfer_funds_orm_insufficient. }
  rewrite (proj2 (Z.leb_le _ _) Hle).
  destruct (List.find (has_number to) (accounts w)) as [r2|] eqn:H2.
  2: { left. split; [done|]. eexists. by eapply transfer_funds_orm_destination_missing. }
  destruct (bindable r1 r2 amount (accounts w)) eqn:Hb.
  2: { left. split; [done|]. eexists. by eapply transfer_funds_orm_overflow. }
  destruct sf; cbn [andb orb negb].
  - destruct (exists_account "ACC001" (accounts w)) eqn:Hdup; cbn [negb].
    { left. split; [done|]. eexists.
      by apply (transfer_funds_orm_fault_duplicate _ _ _ _ r1 r2). }
    right. split; [done|]. exists r1, r2. eexists. repeat split; [done|].
    apply transfer_funds_orm_committed; auto.
  - right. split; [done|]. exists r1, r2. eexists. repeat split; [done|].
    apply transfer_funds_orm_committed; auto.
Qed.

Lemma transfer_funds_orm_commits_iff (from to : string) (amount : Z) (sf : bool)
    (w : world) :
  commits (Orm.transfer_funds_orm from to amount sf) w
  ↔ orm_accepts from to amount sf (accounts w) = true.
Proof.
  unfold commits.
  destruct (transfer_funds_orm_outcome from to amount sf w)
    as [[Ha [lines ->]]|[Ha (r1 & r2 & lines & _ & _ & _ & ->)]]; rewrite Ha.
  - split; [|done]. cbn. intros E. by apply commit_is_not_rollback in E.
  - done.
Qed.

(** What [orm_accepts] asks for. *)
Lemma orm_accepts_fault (from to : string) (amount : Z) (sf : bool) (t : list account) :
  orm_accepts from to amount sf t = true →
  sf = false ∨ balance_of "ACC001" t = None.
Proof.
  unfold orm_accepts.
  destruct (List.find (has_number from) t), (List.find (has_number to) t); try done.
  rewrite !andb_true_iff, orb_true_iff, !negb_true_iff, balance_of_missing. tauto.
Qed.

Lemma orm_accepts_intro (from to : string) (amount : Z) (sf : bool) (t : list account)
    (r1 r2 : account) :
  List.find (has_number from) t = Some r1 →
  amount ≤ balance r1 →
  List.find (has_number to) t = Some r2 →
  bindable r1 r2 amount t = true →
  sf = false ∨ balance_of "ACC001" t = None →
  orm_accepts from to amount sf t = true.
Proof.
  intros H1 Hle H2 Hb Hsf. unfold orm_accepts. rewrite H1, H2, Hb.
  rewrite (proj2 (Z.leb_le _ _) Hle). cbn [andb].
  destruct Hsf as [->|Hnone]; [done|].
  apply balance_of_missing in Hnone. rewrite Hnone. by destruct sf.
Qed.

Lemma orm_accepts_elim (from to : string) (amount : Z) (sf : bool) (t : list account) :
  orm_accepts from to amount sf t = true →
  ∃ b, balance_of from t = Some b ∧ amount ≤ b ∧ is_Some (balance_of to t)
       ∧ (sf = false ∨ balance_of "ACC001" t = None).
Proof.
  intros Ha. pose proof (orm_accepts_fault _ _ _ _ _ Ha) as Hsf.
  unfold orm_accepts in Ha.
  destruct (List.find (has_number from) t) as [r1|] eqn:H1; [|done].
  destruct (List.find (has_number to) t) as [r2|] eqn:H2; [|done].
  apply andb_true_iff in Ha as [[Hle _]%andb_true_iff _]. apply Z.leb_le in Hle.
  exists (balance r1). split; [by apply find_balance_of|]. split; [done|].
  split; [|done]. rewrite (find_balance_of _ _ _ H2). by eexists.
Qed.

(** With the simulated fault the ORM transfer leaves the committed rows as
    they were whenever a row numbered ACC001 exists. *)
Lemma orm_simulated_fault_restores (from to : string) (amount : Z) (w : world) :
  exists_account "ACC001" (accounts w) = true →
  accounts (Orm.transfer_funds_orm from to amount true w).2 = accounts w
  ∧ rolls_back (Orm.transfer_funds_orm from to amount true) w.
Proof.
  intros Hdup. unfold rolls_back.
  destruct (transfer_funds_orm_outcome from to amount true w)
    as [[_ [lines ->]]|[Ha _]]; [done|].
  apply orm_accepts_fault in Ha as [|Hnone]; [done|].
  apply balance_of_missing in Hnone. congruence.
Qed.

(** ** Every transfer returns, and the constraints of the schema are kept *)

Lemma orm_settled_rows (r1 r2 : account) (amount : Z) (t : list account) :
  ∃ k1 v1 k2 v2, orm_settled r1 r2 amount t = settle k1 v1 k2 v2 <$> t.
Proof. unfold orm_settled. case_decide; eauto 6. Qed.

Lemma transfer_funds_orm_total (from to : string) (amount : Z) (sf : bool) (w : world) :
  returns (Orm.transfer_funds_orm from to amount sf) w
  ∧ pending (Orm.transfer_funds_orm from to amount sf w).2 = None
  ∧ orm_rows w (accounts (Orm.transfer_funds_orm from to amount sf w).2).
Proof.
  unfold returns.
  destruct (transfer_funds_orm_outcome from to amount sf w)
    as [[_ [lines ->]]|[Ha (r1 & r2 & lines & _ & _ & _ & ->)]].
  - repeat split. cbn [snd accounts rolled_back_orm]. apply orm_rows_kept.
  - repeat split. cbn [snd accounts committed_orm].
    destruct (orm_settled_rows r1 r2 amount (accounts w)) as (k1 & v1 & k2 & v2 & ->).
    apply orm_accepts_fault in Ha. destruct sf; cbn [fault_row].
    + destruct Ha as [|Hnone]; [done|]. apply balance_of_missing in Hnone.
      by apply orm_rows_inserted.
    + rewrite app_nil_r. apply orm_rows_settled.
Qed.

Lemma id_settle (k1 v1 k2 v2 : Z) (t : list account) :
  id <$> (settle k1 v1 k2 v2 <$> t) = id <$> t
  ∧ account_number <$> (settle k1 v1 k2 v2 <$> t) = account_number <$> t.
Proof.
  rewrite <- !list_fmap_compose.
  split; apply fmap_ext_all; intros r; unfold compose, settle;
    by repeat case_decide.
Qed.

Lemma next_id_above (t : list account) (r : account) :
  r ∈ t → id r < next_id t.
Proof.
  unfold next_id. induction t as [|x t IH]; intros Hr.
  - by apply elem_of_nil in Hr.
  - rewrite fmap_cons. cbn [foldr].
    apply elem_of_cons in Hr as [->|Hr]; [lia|]. specialize (IH Hr). lia.
Qed.

Lemma exists_account_numbers (n : string) (t : list account) :
  exists_account n t = false → n ∉ account_number <$> t.
Proof.
  intros H Hin. apply list_elem_of_fmap in Hin as (r & -> & Hr).
  apply not_true_iff_false in H. apply H.
  apply existsb_exists. exists r. split; [by apply list_elem_of_In|].
  apply String.eqb_refl.
Qed.

Lemma orm_rows_keep_constraints (w : world) (t' : list account) :
  primary_key (accounts w) → unique_numbers (accounts w) → orm_rows w t' →
  primary_key t' ∧ unique_numbers t'.
Proof.
  unfold primary_key, unique_numbers. intros Hpk Hun [|k1 v1 k2 v2|k1 v1 k2 v2 Hdup].
  - done.
  - destruct (id_settle k1 v1 k2 v2 (accounts w)) as [-> ->]. done.
  - rewrite !fmap_app.
    destruct (id_settle k1 v1 k2 v2 (accounts w)) as [Hi Hn]. rewrite Hi, Hn.
    split; apply NoDup_app; (split; [done|]); (split; [|apply NoDup_singleton]).
    + intros k Hk Hk'. apply list_elem_of_singleton in Hk'. simpl in Hk'.
      rewrite <- Hi in Hk. apply list_elem_of_fmap in Hk as (r & -> & Hr).
      apply next_id_above in Hr. lia.
    + intros n Hn' Hn''. apply list_elem_of_singleton in Hn''. simpl in Hn''. subst n.
      by apply exists_account_numbers in Hdup.
Qed.

(** Both transfers return to their caller on every input and keep the
    PRIMARY KEY and UNIQUE constraints of the table. *)
Lemma transfers_keep_constraints (from to : string) (amount : Z) (sf : bool) (w : world) :
  primary_key (accounts w) → unique_numbers (accounts w) →
  (returns (Core.transfer_funds from to amount sf) w
   ∧ primary_key (accounts (Core.transfer_funds from to amount sf w).2)
   ∧ unique_numbers (accounts (Core.transfer_funds from to amount sf w).2))
  ∧ (returns (Orm.transfer_funds_orm from to amount sf) w
     ∧ primary_key (accounts (Orm.transfer_funds_orm from to amount sf w).2)
     ∧ unique_numbers (accounts (Orm.transfer_funds_orm from to amount sf w).2)).
Proof.
  intros Hpk Hun. split.
  - split; [apply transfer_funds_returns|].
    rewrite transfer_funds_accounts.
    destruct (core_accepts from to amount sf (accounts w)); [|done].
    unfold primary_key, unique_numbers.
    by destruct (id_moved from to amount (accounts w)) as [-> ->].
  - destruct (transfer_funds_orm_total from to amount sf w) as (Hr & _ & Hrows).
    split; [exact Hr|]. by apply (orm_rows_keep_constraints w).
Qed.

Lemma seeded_tables_meet_constraints :
  primary_key (accounts core_seeded) ∧ unique_numbers (accounts core_seeded)
  ∧ primary_key (accounts orm_seeded) ∧ unique_numbers (accounts orm_seeded).
Proof.
  unfold primary_key, unique_numbers.
  repeat split; apply (bool_decide_unpack _); vm_compute; exact I.
Qed.

(** ** The order of account numbers *)

Lemma string_compare_trans (s1 s2 s3 : string) :
  String.compare s1 s2 ≠ Gt → String.compare s2 s3 ≠ Gt → String.compare s1 s3 ≠ Gt.
Proof.
  revert s2 s3. induction s1 as [|a s1 IH]; intros [|b s2] [|c s3]; simpl; try done.
  unfold Ascii.compare.
  destruct (N.compare_spec (N_of_ascii a) (N_of_ascii b)) as [E1|L1|G1];
    destruct (N.compare_spec (N_of_ascii b) (N_of_ascii c)) as [E2|L2|G2];
    destruct (N.compare_spec (N_of_ascii a) (N_of_ascii c)) as [E3|L3|G3];
    try done; try lia.
  apply IH.
Qed.

#[global] Instance number_le_total : Total number_le.
Proof. intros r1 r2. apply String.leb_total. Qed.

#[global] Instance number_le_trans : Transitive number_le.
Proof.
  intros r1 r2 r3. unfold number_le, String.leb. intros H12 H23.
  pose proof (string_compare_trans (account_number r1) (account_number r2)
                (account_number r3)) as Ht.
  destruct (String.compare (account_number r1) (account_number r2)); try done;
    destruct (String.compare (account_number r2) (account_number r3)); try done;
    destruct (String.compare (account_number r1) (account_number r3)); try done;
    exfalso; by apply Ht.
Qed.

Lemma order_by_account_number_sorted (t : list account) :
  StronglySorted number_le (order_by_account_number t).
Proof. apply StronglySorted_merge_sort; apply _. Qed.

Lemma order_by_account_number_perm (t : list account) :
  order_by_account_number t ≡ₚ t.
Proof. apply merge_sort_Permutation. Qed.

(** With unique account numbers the order of the rows in the table does not
    show in the result. *)
Lemma order_by_account_number_insertion_order (t1 t2 : list account) :
  unique_numbers t1 → t1 ≡ₚ t2 →
  order_by_account_number t1 = order_by_account_number t2.
Proof.
  intros Hu Hp. apply (StronglySorted_unique_strong number_le).
  - intros r r' Hr Hr' H12 H21.
    apply (unique_numbers_inj t1 r r' Hu).
    + by rewrite <- (order_by_account_number_perm t1).
    + rewrite Hp. by rewrite <- (order_by_account_number_perm t2).
    + by apply String.leb_antisym.
  - apply order_by_account_number_sorted.
  - apply order_by_account_number_sorted.
  - by rewrite !order_by_account_number_perm.
Qed.

(** ** The seeding *)

Lemma setup_accounts_table_on_seeds (table_exists : bool) (w0 : world) :
  accounts (Core.setup_accounts_table_on table_exists w0).2 = seeded_rows.
Proof. destruct table_exists; vm_compute; reflexivity. Qed.

Lemma setup_accounts_table_seeds (w0 : world) :
  accounts (Core.setup_accounts_table w0).2 = seeded_rows.
Proof. apply setup_accounts_table_on_seeds. Qed.

Lemma setup_accounts_orm_table_seeds (w0 : world) :
  accounts (Orm.setup_accounts_orm_table w0).2 = orm_seeded_rows.
Proof. vm_compute. reflexivity. Qed.

(** ** The stores the ORM script hands to its transfer *)

Lemma exists_account_app (n : string) (t extra : list account) :
  exists_account n t = true → exists_account n (t ++ extra) = true.
Proof.
  unfold exists_account. rewrite existsb_app. intros ->. reflexivity.
Qed.

Lemma exists_account_orm_settled (n : string) (r1 r2 : account) (amount : Z)
    (t : list account) :
  exists_account n (orm_settled r1 r2 amount t) = exists_account n t.
Proof.
  destruct (orm_settled_rows r1 r2 amount t) as (k1 & v1 & k2 & v2 & ->).
  unfold exists_account. induction t as [|r t IH]; [reflexivity|].
  rewrite fmap_cons. cbn [existsb]. by rewrite has_number_settle, IH.
Qed.

(** No transfer removes an account. *)
Lemma transfer_funds_orm_keeps_account (n from to : string) (amount : Z) (sf : bool)
    (w : world) :
  exists_account n (accounts w) = true →
  exists_account n (accounts (Orm.transfer_funds_orm from to amount sf w).2) = true.
Proof.
  intros Hn.
  destruct (transfer_funds_orm_outcome from to amount sf w)
    as [[_ [lines ->]]|[_ (r1 & r2 & lines & _ & _ & _ & ->)]]; [done|].
  cbn [snd accounts committed_orm]. apply exists_account_app.
  by rewrite exists_account_orm_settled.
Qed.

(** Every store the ORM script hands to its transfer holds the row ACC001:
    the seeding inserts it, and neither a transfer nor a report removes a
    row. *)
Lemma orm_receivable_has_ACC001 (w : world) :
  orm_receivable w → exists_account "ACC001" (accounts w) = true.
Proof.
  induction 1 as [w0|w from to amount sf _ IH|w _ IH].
  - by rewrite setup_accounts_orm_table_seeds.
  - by apply transfer_funds_orm_keeps_account.
  - by rewrite get_account_balances_orm_run.
Qed.

(** * The claims *)



(** The rollback of the ORM transfer rests on the row ACC001: on a table
    built by hand without it, the added row is no duplicate and the transfer
    commits.  No store of the script is like that
    ([orm_receivable_has_ACC001]). *)
Example orm_fault_on_a_table_without_ACC001 :
  commits (Orm.transfer_funds_orm "ACC002" "ACC003" 100 true) two_accounts
  ∧ balance_of "ACC002"
      (accounts (Orm.transfer_funds_orm "ACC002" "ACC003" 100 true two_accounts).2)
    = Some 400
  ∧ ¬ orm_receivable two_accounts.
Proof.
  split; [vm_compute; reflexivity|]. split; [vm_compute; reflexivity|].
  intros H. apply orm_receivable_has_ACC001 in H. discriminate H.
Qed.










(** C5. The scenario of the Core script, on a store that holds the table
    or not.  After the seeding the balances are 1000, 2000 and 3000.  The
    transfer of 100 from ACC001 to ACC002 commits and leaves 900, 2100 and
    3000.  The transfer of 50 from ACC001 to ACC003 with the simulated fault
    is rolled back and leaves the rows as they were.  A transfer from an
    account number that is not in the table to ACC002 is then rolled back and
    leaves the rows as they were, whatever the amount; its failure is the
    not-found one for every amount that can be bound as a 64-bit integer, the
    amount 100 of the script among them. *)
Theorem core_scenario (table_exists : bool) (w0 : world) (nope : string)
    (amount : Z) :
  balance_of nope seeded_rows = None →
  let w := (Core.setup_accounts_table_on table_exists w0).2 in
  let w1 := (Core.transfer_funds "ACC001" "ACC002" 100 false w).2 in
  let w2 := (Core.transfer_funds "ACC001" "ACC003" 50 true w1).2 in
  let w3 := (Core.transfer_funds nope "ACC002" amount false w2).2 in
  balances w = [("ACC001", 1000); ("ACC002", 2000); ("ACC003", 3000)]
  ∧ commits (Core.transfer_funds "ACC001" "ACC002" 100 false) w
  ∧ balances w1 = [("ACC001", 900); ("ACC002", 2100); ("ACC003", 3000)]
  ∧ rolls_back (Core.transfer_funds "ACC001" "ACC003" 50 true) w1
  ∧ accounts w2 = accounts w1
  ∧ rolls_back (Core.transfer_funds nope "ACC002" amount false) w2
  ∧ (int64 amount →
     raised_in_try nope "ACC002" amount false w2 = inl (Core.not_found nope)
     ∧ error_occurred (Core.not_found nope)
       ∈ printed (Core.transfer_funds nope "ACC002" amount false) w2)
  ∧ accounts w3 = accounts w2.
Proof.
  intros Hnope w w1 w2 w3.
  assert (Hw : accounts w = seeded_rows) by apply setup_accounts_table_on_seeds.
  assert (Hc : commits (Core.transfer_funds "ACC001" "ACC002" 100 false) w).
  { apply transfer_funds_commits_iff. rewrite Hw. reflexivity. }
  assert (Hw1 : accounts w1 = moved "ACC001" "ACC002" 100 seeded_rows).
  { subst w1. rewrite transfer_funds_committed by (rewrite ?Hw; reflexivity).
    cbn [snd accounts]. by rewrite Hw. }
  destruct (core_simulated_fault_restores "ACC001" "ACC003" 50 w1) as [Hw2 Hr2].
  fold w2 in Hw2.
  assert (Hmiss : exists_account nope (accounts w2) = false).
  { rewrite Hw2, Hw1, exists_account_moved. by apply balance_of_missing. }
  split; [unfold balances; rewrite Hw; reflexivity|].
  split; [exact Hc|].
  split; [unfold balances; rewrite Hw1; reflexivity|].
  split; [exact Hr2|]. split; [exact Hw2|].
  assert (Hnc : ¬ commits (Core.transfer_funds nope "ACC002" amount false) w2).
  { rewrite transfer_funds_commits_iff. unfold core_accepts.
    by rewrite Hmiss, andb_false_r. }
  destruct (transfer_funds_not_committed _ _ _ _ _ Hnc) as [Hw3 Hr3].
  split; [exact Hr3|]. split; [|exact Hw3].
  intros Hfit%fits_int64_true.
  split; [by apply try_source_missing|].
  erewrite printed_app; [|rewrite transfer_funds_source_missing by done; reflexivity].
  listed.
Qed.

Lemma core_scenario_witness :
  balance_of "NON_EXISTENT_ACC" seeded_rows = None
  ∧ balances (Core.transfer_funds "ACC001" "ACC002" 100 false
                (Core.setup_accounts_table fresh).2).2
    = [("ACC001", 900); ("ACC002", 2100); ("ACC003", 3000)].
Proof.
  split; [reflexivity|].
  exact (proj1 (proj2 (proj2 (core_scenario true fresh "NON_EXISTENT_ACC" 100 eq_refl)))).
Defined.

(** C6, as the code has it.  Both scripts run their statements to the end:
    no statement raises, and the interpreter exits with status 0.  The Core
    script does so whether or not the store already holds the table.  The
    Core script has a catch-all around its statements: an error raised by
    them is reported in one line and the script then ends normally, with exit
    status 0.  The ORM script has no handler around its statements: an error
    raised by them reaches the interpreter, which exits with status 1. *)
Theorem script_error_handling :
  (∀ (table_exists : bool) (w0 : world),
     (Core.main_try_on table_exists w0).1 = inr ()
     ∧ run_script (Core.main_on table_exists) w0
       = (0, (Core.main_try_on table_exists w0).2))
  ∧ (∀ w0 : world,
       (Orm.main_body w0).1 = inr ()
       ∧ run_script Orm.main w0 = (0, (Orm.main_body w0).2))
  ∧ ∀ (body : M world unit) (w w' : world) (e : exn),
      body w = (inl e, w') →
      run_script (Core.main_frame body) w
      = (0, put_lines ["An error occurred: " +:+ str_exn e] w')
      ∧ run_script (Orm.main_frame body) w = (1, w').
Proof.
  split; [|split].
  - intros [] w0; split; vm_compute; reflexivity.
  - intros w0. split; vm_compute; reflexivity.
  - intros body w w' [c msg] Hbody.
    unfold run_script, Core.main_frame, Orm.main_frame, try_except.
    rewrite Hbody. split; [|reflexivity].
    by destruct c.
Qed.

Lemma script_error_handling_witness :
  run_script (Core.main_frame (raise (Raised ValueError "boom"))) fresh
  = (0, put_lines ["An error occurred: boom"] fresh)
  ∧ run_script (Orm.main_frame (raise (Raised ValueError "boom"))) fresh = (1, fresh).
Proof.
  destruct script_error_handling as (_ & _ & H).
  apply (H (raise (Raised ValueError "boom")) fresh fresh (Raised ValueError "boom")).
  reflexivity.
Defined.

(** C6 as stated fails: an error caught by the handler of the Core script
    does not give a non-zero exit status. *)
Lemma caught_error_exits_with_zero :
  ¬ (∀ (body : M world unit) (w w' : world) (e : exn),
       body w = (inl e, w') →
       (run_script (Core.main_frame body) w).1 ≠ 0).
Proof.
  intros H.
  apply (H (raise (Raised Exception "boom")) fresh fresh (Raised Exception "boom"));
    reflexivity.
Qed.

(** C7. When the funds check of the ORM transfer fires (the source exists
    with a balance below the amount), the [ValueError] it raises is caught by
    the first [except] clause: the transfer prints the failure, rolls the
    transaction back, returns to its caller, and leaves the committed rows,
    hence every balance, as they were. *)
Theorem insufficient_funds_is_recovered (from to : string) (amount : Z) (sf : bool)
    (w : world) (b : Z) :
  balance_of from (accounts w) = Some b →
  b < amount →
  raised_in_try_orm from to amount sf w = inl (Orm.insufficient_funds from)
  ∧ returns (Orm.transfer_funds_orm from to amount sf) w
  ∧ rolls_back (Orm.transfer_funds_orm from to amount sf) w
  ∧ accounts (Orm.transfer_funds_orm from to amount sf w).2 = accounts w
  ∧ pending (Orm.transfer_funds_orm from to amount sf w).2 = None
  ∧ printed (Orm.transfer_funds_orm from to amount sf) w
    = [attempting from to sf; transfer_failed_line (Orm.insufficient_funds from)]
      ++ balances_report_orm (accounts w).
Proof.
  intros Hb Hlt. apply balance_of_find in Hb as (r & Hr & <-).
  split; [by eapply try_orm_insufficient|].
  unfold returns, rolls_back.
  rewrite (transfer_funds_orm_insufficient _ _ _ _ _ _ Hr Hlt).
  repeat split. apply printed_app.
  by rewrite (transfer_funds_orm_insufficient _ _ _ _ _ _ Hr Hlt).
Qed.

Lemma insufficient_funds_is_recovered_witness :
  accounts (Orm.transfer_funds_orm "ACC003" "ACC001" 500 false orm_seeded).2
  = accounts orm_seeded.
Proof.
  apply (insufficient_funds_is_recovered "ACC003" "ACC001" 500 false orm_seeded 200).
  - reflexivity.
  - lia.
Defined.

(** C8. The balance reader of either script returns to its caller, leaves
    the committed rows, the open transaction and the journal as they were,
    and prints, after its heading, one line per row of the table, the rows in
    ascending order of [account_number]: the printed rows are sorted, they
    are a rearrangement of the rows of the table, and for a table with unique
    account numbers they do not depend on the order of insertion. *)
Theorem balances_are_read_in_order (w : world) :
  let rows := order_by_account_number (accounts w) in
  Core.get_account_balances w
  = (inr (), World (accounts w) (pending w)
               (stdout w ++ "Current account balances:" :: (Core.balance_line <$> rows))
               (journal w))
  ∧ Orm.get_account_balances_orm w
    = (inr (), World (accounts w) (pending w)
                 (stdout w ++ balances_report_orm (accounts w))
                 (journal w))
  ∧ balances_report_orm (accounts w)
    = (newline +:+ "--------------------- Current Account Balances---------------------------"
       +:+ newline) :: (Orm.balance_line <$> rows)
  ∧ StronglySorted number_le rows
  ∧ rows ≡ₚ accounts w
  ∧ ∀ t, unique_numbers t → t ≡ₚ accounts w → order_by_account_number t = rows.
Proof.
  intros rows. repeat split.
  - by rewrite get_account_balances_run.
  - by rewrite get_account_balances_orm_run.
  - apply order_by_account_number_sorted.
  - apply order_by_account_number_perm.
  - intros t Hu Hp. by apply order_by_account_number_insertion_order.
Qed.

Lemma balances_are_read_in_order_witness :
  order_by_account_number
    [Account 3 "ACC003" 3000; Account 1 "ACC001" 1000; Account 2 "ACC002" 2000]
  = order_by_account_number (accounts core_seeded)
  ∧ account_number <$> order_by_account_number (accounts core_seeded)
    = ["ACC001"; "ACC002"; "ACC003"].
Proof.
  split; [|vm_compute; reflexivity].
  apply (balances_are_read_in_order core_seeded).
  - unfold unique_numbers. apply (bool_decide_unpack _). vm_compute. exact I.
  - vm_compute. etrans; [apply perm_swap|]. apply perm_skip, perm_swap.
Defined.

(** A debit and a credit of the same amount on the same row give the old
    balance when the debited balance is a 64-bit integer. *)
Lemma moved_same (n : string) (amount : Z) (t : list account) (b : Z) :
  unique_numbers t → balance_of n t = Some b →
  int64 b → int64 (b - amount) →
  moved n n amount t = t.
Proof.
  intros Hun Hb Hi Hi'. unfold moved. rewrite <- list_fmap_compose.
  rewrite <- (list_fmap_id t) at 2. apply list_fmap_ext.
  intros i r Hr. apply list_elem_of_lookup_2 in Hr.
  pose proof (balance_of_unique t r Hun Hr) as Hbr.
  destruct r as [row_id row_number row_balance].
  unfold compose, update_row, has_number, Datatypes.id.
  cbn [id account_number balance] in *.
  destruct (String.eqb_spec row_number n) as [->|Hne];
    cbn [id account_number balance]; [|by rewrite (proj2 (String.eqb_neq _ _) Hne)].
  rewrite String.eqb_refl. rewrite Hb in Hbr. injection Hbr as ->.
  exact_arith. f_equal. lia.
Qed.

(** C9, as the code has it.  A transfer from an existing account to itself,
    with no simulated fault.  The Core transfer, on a table with distinct
    account numbers, commits and leaves every row as it was when the amount
    and the debited balance are 64-bit integers.  The ORM transfer, on a
    table whose [id] column is a key, commits when the balance covers the
    amount, and otherwise is rejected by the funds check and rolled back; the
    rows are unchanged either way. *)
Theorem same_account_transfer (n : string) (amount : Z) (w : world) (b : Z) :
  balance_of n (accounts w) = Some b →
  (unique_numbers (accounts w) →
   int64 amount → int64 b → int64 (b - amount) →
   commits (Core.transfer_funds n n amount false) w
   ∧ accounts (Core.transfer_funds n n amount false w).2 = accounts w)
  ∧ (primary_key (accounts w) →
     accounts (Orm.transfer_funds_orm n n amount false w).2 = accounts w
     ∧ (amount ≤ b → commits (Orm.transfer_funds_orm n n amount false) w)
     ∧ (b < amount →
        rolls_back (Orm.transfer_funds_orm n n amount false) w
        ∧ transfer_failed_line (Orm.insufficient_funds n)
          ∈ printed (Orm.transfer_funds_orm n n amount false) w)).
Proof.
  intros Hb. split.
  - intros Hun Hfit Hi Hi'.
    assert (Ha : core_accepts n n amount false (accounts w) = true).
    { apply core_accepts_spec. rewrite Hb. eauto. }
    split; [by apply transfer_funds_commits_iff|].
    rewrite transfer_funds_accounts, Ha. by eapply moved_same.
  - intros Hpk. apply balance_of_find in Hb as (r & Hr & <-).
    destruct (find_has_number _ _ _ Hr) as [Hin _].
    destruct (Z.lt_ge_cases (balance r) amount) as [Hlt|Hle].
    + rewrite (transfer_funds_orm_insufficient _ _ _ _ _ _ Hr Hlt).
      split; [done|]. split; [lia|]. intros _. split.
      * unfold rolls_back.
        by rewrite (transfer_funds_orm_insufficient _ _ _ _ _ _ Hr Hlt).
      * erewrite printed_app;
          [|by rewrite (transfer_funds_orm_insufficient _ _ _ _ _ _ Hr Hlt)].
        listed.
    + pose proof (bindable_same r r amount (accounts w) Hpk Hin eq_refl) as Hbind.
      pose proof (transfer_funds_orm_committed n n amount false w r r Hr Hle Hr Hbind
                    (or_introl eq_refl)) as Hrun.
      unfold commits. rewrite Hrun. cbn [snd accounts journal committed_orm fault_row].
      rewrite app_nil_r. unfold orm_settled. rewrite decide_True by done.
      split; [by apply settle_same|]. split; [done | lia].
Qed.

Lemma same_account_transfer_witness :
  accounts (Core.transfer_funds "ACC003" "ACC003" 500 false orm_seeded).2
  = accounts orm_seeded
  ∧ accounts (Orm.transfer_funds_orm "ACC003" "ACC003" 500 false orm_seeded).2
    = accounts orm_seeded.
Proof.
  destruct (same_account_transfer "ACC003" 500 orm_seeded 200) as [Hcore Horm];
    [reflexivity|].
  split.
  - apply Hcore; [|unfold int64; lia..].
    unfold unique_numbers. apply (bool_decide_unpack _). vm_compute. exact I.
  - apply Horm. unfold primary_key. apply (bool_decide_unpack _). vm_compute. exact I.
Defined.

(** C9 as stated fails: the ORM transfer of 500 from ACC003 (balance 200) to
    itself is not allowed; the funds check rejects it. *)
Lemma same_account_transfer_rejected :
  ¬ (∀ (n : string) (amount : Z) (w : world),
       is_Some (balance_of n (accounts w)) →
       commits (Orm.transfer_funds_orm n n amount false) w).
Proof.
  intros H. specialize (H "ACC003" 500 orm_seeded).
  assert (Hc : commits (Orm.transfer_funds_orm "ACC003" "ACC003" 500 false) orm_seeded).
  { apply H. vm_compute. by eexists. }
  vm_compute in Hc. discriminate Hc.
Qed.




(** * Further properties of the two scripts *)

(** ** Beginning and ending the transaction *)



Lemma int64_table_find (n : string) (t : list account) (r : account) :
  int64_table t → List.find (has_number n) t = Some r → int64 (balance r).
Proof. intros Hint Hr. apply Hint. by apply (find_has_number n). Qed.

Lemma int64_table_balance (n : string) (t : list account) (b : Z) :
  int64_table t → balance_of n t = Some b → int64 b.
Proof.
  intros Hint Hb. apply balance_of_find in Hb as (r & Hr & <-).
  by eapply int64_table_find.
Qed.

(** X3. On a table of 64-bit integers, when the balances the transfer would
    write are 64-bit integers too, the ORM transfer commits exactly when the
    source is in the table with a balance of at least the amount, the
    destination is in the table, and either no fault is simulated or the
    table has no row numbered ACC001; a balance equal to the amount is
    enough.  Whenever it does not commit, it is rolled back and the
    committed rows are the old ones. *)
Theorem orm_transfer_commits_exactly_when (from to : string) (amount : Z)
    (sf : bool) (w : world) :
  (int64_table (accounts w) → keeps_int64 from to amount (accounts w) →
   (commits (Orm.transfer_funds_orm from to amount sf) w ↔
      ∃ b, balance_of from (accounts w) = Some b ∧ amount ≤ b
           ∧ is_Some (balance_of to (accounts w))
           ∧ (sf = false ∨ balance_of "ACC001" (accounts w) = None)))
  ∧ (¬ commits (Orm.transfer_funds_orm from to amount sf) w →
     rolls_back (Orm.transfer_funds_orm from to amount sf) w
     ∧ accounts (Orm.transfer_funds_orm from to amount sf w).2 = accounts w).
Proof.
  split.
  - intros Hint [Hk1 Hk2]. rewrite transfer_funds_orm_commits_iff. split.
    + apply orm_accepts_elim.
    + intros (b & Hb & Hle & [b2 Hb2] & Hsf).
      apply balance_of_find in Hb as (r1 & H1 & <-).
      apply balance_of_find in Hb2 as (r2 & H2 & <-).
      apply (orm_accepts_intro _ _ _ _ _ r1 r2); try done.
      apply bindable_int64.
      * by eapply int64_table_find.
      * apply Hk1. by apply find_balance_of.
      * apply Hk2. by apply find_balance_of.
  - rewrite transfer_funds_orm_commits_iff. unfold rolls_back.
    destruct (transfer_funds_orm_outcome from to amount sf w)
      as [[Ha [lines ->]]|[Ha _]]; [done | congruence].
Qed.


(** X5. With the simulated fault, on a table that has a row numbered ACC001,
    the ORM transfer stores nothing: it returns, is rolled back, and leaves
    the committed rows as they were, whatever the accounts and the amount. *)
Theorem orm_simulated_fault_stores_nothing (from to : string) (amount : Z) (w : world) :
  is_Some (balance_of "ACC001" (accounts w)) →
  returns (Orm.transfer_funds_orm from to amount true) w
  ∧ rolls_back (Orm.transfer_funds_orm from to amount true) w
  ∧ accounts (Orm.transfer_funds_orm from to amount true w).2 = accounts w.
Proof.
  intros H. apply balance_of_exists in H.
  destruct (orm_simulated_fault_restores from to amount w H) as [Ha Hr].
  destruct (transfer_funds_orm_total from to amount true w) as [Hret _]. done.
Qed.

Lemma orm_simulated_fault_stores_nothing_witness :
  accounts (Orm.transfer_funds_orm "ACC002" "ACC003" 100 true orm_seeded).2
  = accounts orm_seeded.
Proof.
  apply (orm_simulated_fault_stores_nothing "ACC002" "ACC003" 100 orm_seeded).
  vm_compute. by eexists.
Defined.


(** ** The rows a transfer leaves: keys, numbers and the total *)

Lemma update_row_absent (n : string) (f : Z → Z) (t : list account) :
  exists_account n t = false → update_row n f <$> t = t.
Proof.
  unfold exists_account. induction t as [|r t IH]; [done|]. cbn [existsb].
  intros H. apply orb_false_iff in H as [Hr Ht].
  rewrite fmap_cons, (IH Ht). unfold update_row. by rewrite Hr.
Qed.

Lemma unique_numbers_tail (r : account) (t : list account) :
  unique_numbers (r :: t) →
  unique_numbers t ∧ exists_account (account_number r) t = false.
Proof.
  unfold unique_numbers. rewrite fmap_cons. intros [Hr Ht]%NoDup_cons.
  split; [done|]. apply not_true_iff_false. intros He. apply Hr.
  apply existsb_exists in He as (x & Hx & Hn). apply String.eqb_eq in Hn.
  rewrite <- Hn. apply list_elem_of_fmap_2. by apply list_elem_of_In.
Qed.

Lemma total_balance_update (n : string) (f : Z → Z) (t : list account) (b : Z) :
  unique_numbers t → balance_of n t = Some b →
  total_balance (update_row n f <$> t) = total_balance t - b + f b.
Proof.
  unfold balance_of. induction t as [|r t IH]; [done|].
  intros Hu Hb. apply unique_numbers_tail in Hu as [Hu Hr].
  rewrite fmap_cons. cbn [List.find total_balance foldr] in *.
  fold (total_balance t). fold (total_balance (update_row n f <$> t)).
  unfold update_row at 1. destruct (has_number n r) eqn:E.
  - injection Hb as <-. apply String.eqb_eq in E. rewrite E in Hr.
    rewrite (update_row_absent n f t Hr). cbn. lia.
  - rewrite (IH Hu Hb). lia.
Qed.

Lemma unique_numbers_update (n : string) (f : Z → Z) (t : list account) :
  unique_numbers t → unique_numbers (update_row n f <$> t).
Proof.
  unfold unique_numbers. by destruct (id_update_row n f t) as [_ ->].
Qed.

Lemma total_balance_moved_exactly (from to : string) (amount : Z) (t : list account) :
  unique_numbers t →
  exists_account from t = true → exists_account to t = true →
  total_balance (moved_exactly from to amount t) = total_balance t.
Proof.
  intros Hu H1 H2. destruct (decide (from = to)) as [->|Hne].
  { by rewrite moved_exactly_same. }
  apply balance_of_exists in H1 as [b1 H1]. apply balance_of_exists in H2 as [b2 H2].
  unfold moved_exactly.
  rewrite (total_balance_update to _ _ b2).
  - rewrite (total_balance_update from _ _ b1) by done. lia.
  - by apply unique_numbers_update.
  - by rewrite balance_of_update_ne.
Qed.

Lemma settle_set_at (k1 v1 k2 v2 : Z) (r : account) :
  settle k1 v1 k2 v2 r = set_at k2 v2 (set_at k1 v1 r).
Proof.
  unfold settle, set_at. destruct r as [k m b]. cbn [id].
  repeat case_decide; cbn [id] in *; try done; try congruence.
Qed.

Lemma id_set_at (k v : Z) (t : list account) :
  id <$> (set_at k v <$> t) = id <$> t.
Proof.
  rewrite <- list_fmap_compose. apply fmap_ext_all. intros r.
  unfold compose, set_at. by case_decide.
Qed.

Lemma set_at_absent (k v : Z) (t : list account) :
  k ∉ id <$> t → set_at k v <$> t = t.
Proof.
  induction t as [|r t IH]; [done|]. rewrite !fmap_cons.
  intros [Hr Ht]%not_elem_of_cons. rewrite (IH Ht). unfold set_at.
  by rewrite decide_False.
Qed.

Lemma total_balance_set_at (r : account) (v : Z) (t : list account) :
  primary_key t → r ∈ t →
  total_balance (set_at (id r) v <$> t) = total_balance t - balance r + v.
Proof.
  unfold primary_key. induction t as [|x t IH]; intros Hpk Hr.
  - by apply elem_of_nil in Hr.
  - rewrite fmap_cons in Hpk. apply NoDup_cons in Hpk as [Hx Hpk].
    rewrite fmap_cons. cbn [total_balance foldr].
    fold (total_balance t). fold (total_balance (set_at (id r) v <$> t)).
    apply elem_of_cons in Hr as [->|Hr].
    + rewrite (set_at_absent _ _ _ Hx). unfold set_at. rewrite decide_True by done.
      cbn. lia.
    + rewrite (IH Hpk Hr). unfold set_at. rewrite decide_False; [lia|].
      intros Heq. apply Hx. rewrite Heq. by apply list_elem_of_fmap_2.
Qed.

Lemma total_balance_settle (r1 r2 : account) (v1 v2 : Z) (t : list account) :
  primary_key t → r1 ∈ t → r2 ∈ t → id r1 ≠ id r2 →
  total_balance (settle (id r1) v1 (id r2) v2 <$> t)
  = total_balance t - balance r1 - balance r2 + v1 + v2.
Proof.
  intros Hpk H1 H2 Hne.
  rewrite (fmap_ext_all _ _ _ (settle_set_at (id r1) v1 (id r2) v2)).
  rewrite (list_fmap_compose (set_at (id r1) v1) (set_at (id r2) v2)).
  assert (H2' : r2 ∈ set_at (id r1) v1 <$> t).
  { apply list_elem_of_fmap. exists r2. split; [|done].
    unfold set_at. by rewrite decide_False. }
  rewrite (total_balance_set_at r2 v2); [|unfold primary_key; by rewrite id_set_at|done].
  rewrite (total_balance_set_at r1 v1) by done. lia.
Qed.

Lemma total_balance_orm_settled (from to : string) (r1 r2 : account) (amount : Z)
    (t : list account) :
  primary_key t →
  List.find (has_number from) t = Some r1 →
  List.find (has_number to) t = Some r2 →
  total_balance (orm_settled r1 r2 amount t) = total_balance t.
Proof.
  intros Hpk H1 H2.
  destruct (find_has_number _ _ _ H1) as [Hin1 _].
  destruct (find_has_number _ _ _ H2) as [Hin2 _].
  unfold orm_settled. case_decide as Hid.
  - by rewrite settle_same.
  - rewrite total_balance_settle by done. lia.
Qed.

Lemma id_orm_settled (r1 r2 : account) (amount : Z) (t : list account) :
  id <$> orm_settled r1 r2 amount t = id <$> t
  ∧ account_number <$> orm_settled r1 r2 amount t = account_number <$> t.
Proof. unfold orm_settled. case_decide; apply id_settle. Qed.

(** ** Invariants of the table *)

(** X7. Either transfer keeps the constraints of the schema: on a table
    whose ids are distinct and whose account numbers are distinct, the rows
    committed after the transfer again have distinct ids and distinct account
    numbers, for every input and every outcome. *)
Theorem transfers_preserve_the_constraints (from to : string) (amount : Z)
    (sf : bool) (w : world) :
  primary_key (accounts w) →
  unique_numbers (accounts w) →
  primary_key (accounts (Core.transfer_funds from to amount sf w).2)
  ∧ unique_numbers (accounts (Core.transfer_funds from to amount sf w).2)
  ∧ primary_key (accounts (Orm.transfer_funds_orm from to amount sf w).2)
  ∧ unique_numbers (accounts (Orm.transfer_funds_orm from to amount sf w).2).
Proof.
  intros Hpk Hun.
  destruct (transfers_keep_constraints from to amount sf w Hpk Hun)
    as [(_ & ? & ?) (_ & ? & ?)].
  done.
Qed.

Lemma transfers_preserve_the_constraints_witness :
  primary_key
    (accounts (Orm.transfer_funds_orm "ACC002" "ACC003" 100 true two_accounts).2)
  ∧ unique_numbers
      (accounts (Orm.transfer_funds_orm "ACC002" "ACC003" 100 true two_accounts).2).
Proof.
  apply (transfers_preserve_the_constraints "ACC002" "ACC003" 100 true two_accounts).
  - unfold primary_key. apply (bool_decide_unpack _). vm_compute. exact I.
  - unfold unique_numbers. apply (bool_decide_unpack _). vm_compute. exact I.
Defined.

(** X8. A transfer neither adds nor removes an account.  After the Core
    transfer the table has the same ids and the same account numbers, in the
    same order, for every input, the simulated fault and its row ACC999
    included.  The same holds for the ORM transfer when no fault is simulated
    or the table has a row numbered ACC001. *)
Theorem transfer_keeps_the_accounts (from to : string) (amount : Z)
    (sf : bool) (w : world) :
  (id <$> accounts (Core.transfer_funds from to amount sf w).2 = id <$> accounts w
   ∧ account_number <$> accounts (Core.transfer_funds from to amount sf w).2
     = account_number <$> accounts w)
  ∧ (sf = false ∨ is_Some (balance_of "ACC001" (accounts w)) →
     id <$> accounts (Orm.transfer_funds_orm from to amount sf w).2
     = id <$> accounts w
     ∧ account_number <$> accounts (Orm.transfer_funds_orm from to amount sf w).2
       = account_number <$> accounts w).
Proof.
  split.
  - rewrite transfer_funds_accounts.
    destruct (core_accepts from to amount sf (accounts w)); [apply id_moved | done].
  - intros Hsf.
    destruct (transfer_funds_orm_outcome from to amount sf w)
      as [[_ [lines ->]]|[Ha (r1 & r2 & lines & _ & _ & _ & ->)]]; [done|].
    cbn [snd accounts committed_orm].
    assert (Hnone : fault_row sf (orm_settled r1 r2 amount (accounts w)) = []).
    { apply orm_accepts_fault in Ha as [->|Hnone]; [done|].
      destruct Hsf as [->|[? Hsome]]; [done | congruence]. }
    rewrite Hnone, app_nil_r. apply id_orm_settled.
Qed.

Lemma transfer_keeps_the_accounts_witness :
  account_number
    <$> accounts (Orm.transfer_funds_orm "ACC001" "ACC003" 500 true orm_seeded).2
  = ["ACC001"; "ACC002"; "ACC003"].
Proof.
  destruct (transfer_keeps_the_accounts "ACC001" "ACC003" 500 true orm_seeded)
    as [_ H].
  destruct H as [_ H]; [right; vm_compute; by eexists|].
  rewrite H. reflexivity.
Defined.

(** X9. The Core transfer neither creates nor destroys money within the
    64-bit range: on a table of 64-bit integers with distinct account
    numbers, when the balances the transfer would write are 64-bit integers
    too, the sum of all balances after the transfer equals the sum before,
    for every outcome. *)
Theorem core_transfer_conserves_the_total (from to : string) (amount : Z)
    (sf : bool) (w : world) :
  unique_numbers (accounts w) →
  int64_table (accounts w) →
  keeps_int64 from to amount (accounts w) →
  total_balance (accounts (Core.transfer_funds from to amount sf w).2)
  = total_balance (accounts w).
Proof.
  intros Hun Hint Hkeep. rewrite transfer_funds_accounts.
  destruct (core_accepts from to amount sf (accounts w)) eqn:Ha; [|done].
  unfold core_accepts in Ha. apply andb_true_iff in Ha as [[_ H1]%andb_true_iff H2].
  rewrite moved_in_range by done. by apply total_balance_moved_exactly.
Qed.

Ltac seeded_keeps_int64 :=
  split; intros b Hb; vm_compute in Hb; injection Hb as <-; unfold int64; lia.

Ltac seeded_int64_table :=
  intros r Hr; repeat (apply elem_of_cons in Hr as [->|Hr]; [unfold int64; cbn; lia|]);
  by apply elem_of_nil in Hr.

Lemma core_transfer_conserves_the_total_witness :
  total_balance (accounts (Core.transfer_funds "ACC001" "ACC002" 1500 false core_seeded).2)
  = 6000.
Proof.
  rewrite (core_transfer_conserves_the_total "ACC001" "ACC002" 1500 false core_seeded).
  - reflexivity.
  - unfold unique_numbers. apply (bool_decide_unpack _). vm_compute. exact I.
  - change (accounts core_seeded) with seeded_rows. seeded_int64_table.
  - seeded_keeps_int64.
Defined.

(** X10. The ORM transfer neither creates nor destroys money when no fault
    is simulated or the table has a row numbered ACC001: on a table with
    distinct ids the sum of all balances after the transfer equals the sum
    before, for every outcome. *)
Theorem orm_transfer_conserves_the_total (from to : string) (amount : Z)
    (sf : bool) (w : world) :
  primary_key (accounts w) →
  sf = false ∨ is_Some (balance_of "ACC001" (accounts w)) →
  total_balance (accounts (Orm.transfer_funds_orm from to amount sf w).2)
  = total_balance (accounts w).
Proof.
  intros Hpk Hsf.
  destruct (transfer_funds_orm_outcome from to amount sf w)
    as [[_ [lines ->]]|[Ha (r1 & r2 & lines & H1 & H2 & _ & ->)]]; [done|].
  cbn [snd accounts committed_orm].
  assert (Hnone : fault_row sf (orm_settled r1 r2 amount (accounts w)) = []).
  { apply orm_accepts_fault in Ha as [->|Hnone]; [done|].
    destruct Hsf as [->|[? Hsome]]; [done | congruence]. }
  rewrite Hnone, app_nil_r. by eapply total_balance_orm_settled.
Qed.

Lemma orm_transfer_conserves_the_total_witness :
  total_balance (accounts (Orm.transfer_funds_orm "ACC001" "ACC002" 200 false orm_seeded).2)
  = 1700.
Proof.
  rewrite (orm_transfer_conserves_the_total "ACC001" "ACC002" 200 false orm_seeded).
  - reflexivity.
  - unfold primary_key. apply (bool_decide_unpack _). vm_compute. exact I.
  - by left.
Defined.

(** ** How Core transfers compose *)

Lemma core_accepts_swap (from to : string) (amount : Z) (sf : bool) (t : list account) :
  core_accepts to from amount sf t = core_accepts from to amount sf t.
Proof.
  unfold core_accepts.
  destruct (fits_int64 amount), sf, (exists_account from t), (exists_account to t);
    reflexivity.
Qed.

Lemma core_accepts_moved_exactly (from to from' to' : string) (amount amount' : Z)
    (sf : bool) (t : list account) :
  core_accepts from to amount sf (moved_exactly from' to' amount' t)
  = core_accepts from to amount sf t.
Proof. unfold core_accepts. by rewrite !exists_account_moved_exactly. Qed.

(** After a transfer within the range, the transfer back stays within it. *)
Lemma keeps_int64_back (from to : string) (amount : Z) (t : list account) :
  int64_table t → keeps_int64 from to amount t →
  keeps_int64 to from amount (moved_exactly from to amount t).
Proof.
  intros Hint [Hk1 Hk2]. destruct (decide (from = to)) as [->|Hne].
  { rewrite moved_exactly_same. done. }
  unfold moved_exactly. split; intros b.
  - rewrite balance_of_update_eq, balance_of_update_ne by done.
    destruct (balance_of to t) as [b2|] eqn:Hb2; [|done]. intros [= <-].
    pose proof (int64_table_balance _ _ _ Hint Hb2). unfold int64 in *. lia.
  - rewrite balance_of_update_ne by done. rewrite balance_of_update_eq.
    destruct (balance_of from t) as [b1|] eqn:Hb1; [|done]. intros [= <-].
    pose proof (int64_table_balance _ _ _ Hint Hb1). unfold int64 in *. lia.
Qed.

(** X11. Within the 64-bit range a Core transfer is undone by the transfer
    of the same amount in the opposite direction: on a table of 64-bit
    integers with distinct account numbers, when the balances the first
    transfer would write are 64-bit integers too, the two transfers one after
    the other leave the committed rows exactly as they were before the first
    one. *)
Theorem core_transfer_there_and_back (from to : string) (amount : Z)
    (sf : bool) (w : world) :
  unique_numbers (accounts w) →
  int64_table (accounts w) →
  keeps_int64 from to amount (accounts w) →
  accounts (Core.transfer_funds to from amount sf
              (Core.transfer_funds from to amount sf w).2).2
  = accounts w.
Proof.
  intros Hun Hint Hkeep. rewrite !transfer_funds_accounts.
  destruct (core_accepts from to amount sf (accounts w)) eqn:Ha.
  - rewrite (moved_in_range from to) by done.
    rewrite core_accepts_swap, core_accepts_moved_exactly, Ha.
    rewrite moved_in_range.
    + apply moved_exactly_back.
    + by apply unique_numbers_moved_exactly.
    + by apply int64_table_moved_exactly.
    + by apply keeps_int64_back.
  - by rewrite core_accepts_swap, Ha.
Qed.

Lemma core_transfer_there_and_back_witness :
  accounts (Core.transfer_funds "ACC002" "ACC001" 1500 false
              (Core.transfer_funds "ACC001" "ACC002" 1500 false core_seeded).2).2
  = accounts core_seeded.
Proof.
  apply (core_transfer_there_and_back "ACC001" "ACC002" 1500 false core_seeded).
  - unfold unique_numbers. apply (bool_decide_unpack _). vm_compute. exact I.
  - change (accounts core_seeded) with seeded_rows. seeded_int64_table.
  - seeded_keeps_int64.
Defined.

Lemma keeps_int64_then (from to : string) (a b : Z) (t : list account) :
  from ≠ to →
  keeps_int64 from to (a + b) t →
  keeps_int64 from to b (moved_exactly from to a t).
Proof.
  intros Hne [Hk1 Hk2]. unfold moved_exactly. split; intros v.
  - rewrite balance_of_update_ne by done. rewrite balance_of_update_eq.
    destruct (balance_of from t) as [b1|] eqn:Hb1; [|done]. intros [= <-].
    specialize (Hk1 b1 eq_refl). unfold int64 in *. lia.
  - rewrite balance_of_update_eq, balance_of_update_ne by done.
    destruct (balance_of to t) as [b2|] eqn:Hb2; [|done]. intros [= <-].
    specialize (Hk2 b2 eq_refl). unfold int64 in *. lia.
Qed.

(** X12. Within the 64-bit range two Core transfers between the same two
    distinct accounts, one after the other, leave the same committed rows as
    one transfer of the sum of the two amounts: this holds on a table of
    64-bit integers with distinct account numbers when the two amounts, their
    sum, and the balances written by the first transfer and by the transfer
    of the sum are 64-bit integers. *)
Theorem core_transfers_add_up (from to : string) (a b : Z) (sf : bool) (w : world) :
  from ≠ to →
  unique_numbers (accounts w) →
  int64_table (accounts w) →
  int64 a → int64 b → int64 (a + b) →
  keeps_int64 from to a (accounts w) →
  keeps_int64 from to (a + b) (accounts w) →
  accounts (Core.transfer_funds from to b sf
              (Core.transfer_funds from to a sf w).2).2
  = accounts (Core.transfer_funds from to (a + b) sf w).2.
Proof.
  intros Hne Hun Hint Ha Hb Hab Hka Hkab. rewrite !transfer_funds_accounts.
  assert (Hsame : ∀ t, core_accepts from to b sf t = core_accepts from to a sf t
                       ∧ core_accepts from to (a + b) sf t = core_accepts from to a sf t).
  { intros t. unfold core_accepts.
    by rewrite !fits_int64_true by done. }
  destruct (Hsame (accounts w)) as [_ ->].
  destruct (core_accepts from to a sf (accounts w)) eqn:Hacc.
  - rewrite (moved_in_range from to a) by done.
    destruct (Hsame (moved_exactly from to a (accounts w))) as [-> _].
    rewrite core_accepts_moved_exactly, Hacc.
    rewrite (moved_in_range from to (a + b)) by done.
    rewrite moved_in_range.
    + apply moved_exactly_twice.
    + by apply unique_numbers_moved_exactly.
    + by apply int64_table_moved_exactly.
    + by apply keeps_int64_then.
  - destruct (Hsame (accounts w)) as [-> _]. by rewrite Hacc.
Qed.

Lemma core_transfers_add_up_witness :
  accounts (Core.transfer_funds "ACC001" "ACC002" 50 false
              (Core.transfer_funds "ACC001" "ACC002" 100 false core_seeded).2).2
  = accounts (Core.transfer_funds "ACC001" "ACC002" (100 + 50) false core_seeded).2.
Proof.
  apply (core_transfers_add_up "ACC001" "ACC002" 100 50 false core_seeded).
  - done.
  - unfold unique_numbers. apply (bool_decide_unpack _). vm_compute. exact I.
  - change (accounts core_seeded) with seeded_rows. seeded_int64_table.
  - unfold int64. lia.
  - unfold int64. lia.
  - unfold int64. lia.
  - seeded_keeps_int64.
  - seeded_keeps_int64.
Defined.

Lemma moved_negative (from to : string) (amount : Z) (t : list account) :
  from ≠ to →
  moved from to (- amount) t = moved to from amount t.
Proof.
  intros Hne. unfold moved. rewrite <- !list_fmap_compose. apply fmap_ext_all.
  intros [row_id row_number row_balance].
  unfold compose, update_row, has_number.
  cbn [id account_number balance].
  split_numbers row_number; subst; try congruence;
    by rewrite ?sqlite_sub_opp, ?sqlite_add_opp.
Qed.

(** X13. The Core transfer does not check the sign of the amount: between
    two distinct account numbers, for an amount whose opposite can be bound
    as well, a transfer of the negative amount leaves the same committed rows
    as the transfer of the opposite amount in the opposite direction. *)
Theorem core_negative_amount_reverses (from to : string) (amount : Z)
    (sf : bool) (w : world) :
  from ≠ to →
  int64 amount → int64 (- amount) →
  accounts (Core.transfer_funds from to (- amount) sf w).2
  = accounts (Core.transfer_funds to from amount sf w).2.
Proof.
  intros Hne Hfit Hfit'. rewrite !transfer_funds_accounts.
  assert (Hacc : core_accepts from to (- amount) sf (accounts w)
                 = core_accepts to from amount sf (accounts w)).
  { rewrite core_accepts_swap. unfold core_accepts.
    by rewrite !fits_int64_true by done. }
  rewrite Hacc.
  destruct (core_accepts to from amount sf (accounts w)); [|done].
  by apply moved_negative.
Qed.

Lemma core_negative_amount_reverses_witness :
  accounts (Core.transfer_funds "ACC001" "ACC002" (- 100) false core_seeded).2
  = accounts (Core.transfer_funds "ACC002" "ACC001" 100 false core_seeded).2.
Proof.
  apply (core_negative_amount_reverses "ACC001" "ACC002" 100 false core_seeded).
  - done.
  - unfold int64. lia.
  - unfold int64. lia.
Defined.

(** ** The funds check of the ORM transfer *)

(** X14. The ORM transfer never overdraws the source: on a table with
    distinct ids, when a transfer between two distinct accounts commits, the
    balance of the source afterwards is its old balance less the amount, and
    it is not negative. *)
Theorem orm_transfer_never_overdraws_the_source (from to : string) (amount : Z)
    (sf : bool) (w : world) (b : Z) :
  primary_key (accounts w) →
  from ≠ to →
  balance_of from (accounts w) = Some b →
  commits (Orm.transfer_funds_orm from to amount sf) w →
  balance_of from (accounts (Orm.transfer_funds_orm from to amount sf w).2)
  = Some (b - amount)
  ∧ 0 ≤ b - amount.
Proof.
  intros Hpk Hne Hb. unfold commits.
  destruct (transfer_funds_orm_outcome from to amount sf w)
    as [[_ [lines ->]]|[_ (r1 & r2 & lines & H1 & H2 & Hle & ->)]].
  { cbn. intros E. by apply commit_is_not_rollback in E. }
  intros _. cbn [snd accounts committed_orm].
  apply balance_of_find in Hb as (r & Hr & <-).
  assert (r = r1) as -> by congruence.
  destruct (settled_balances from to r1 r2 amount (accounts w) Hpk Hne H1 H2)
    as (Hid & Ha & _).
  unfold orm_settled. rewrite decide_False by done.
  split; [by apply balance_of_app_existing | lia].
Qed.

Lemma orm_transfer_never_overdraws_the_source_witness :
  balance_of "ACC003"
    (accounts (Orm.transfer_funds_orm "ACC003" "ACC001" 200 false orm_seeded).2)
  = Some 0.
Proof.
  apply (orm_transfer_never_overdraws_the_source "ACC003" "ACC001" 200 false
           orm_seeded 200).
  - unfold primary_key. apply (bool_decide_unpack _). vm_compute. exact I.
  - done.
  - reflexivity.
  - vm_compute. reflexivity.
Defined.

(** X15. The funds check of the ORM transfer guards the source only, and
    the sign of the amount is not checked: with a negative amount that the
    check lets through, and new balances that are 64-bit integers, the
    transfer commits, the money moves from the destination to the source,
    and the destination is left with a negative balance when it held less
    than the amount's magnitude. *)
Theorem orm_negative_amount_overdraws_the_destination (from to : string)
    (amount : Z) (w : world) (b1 b2 : Z) :
  primary_key (accounts w) →
  from ≠ to →
  balance_of from (accounts w) = Some b1 →
  balance_of to (accounts w) = Some b2 →
  amount ≤ b1 →
  b2 + amount < 0 →
  int64 b1 → int64 (b1 - amount) → int64 (b2 + amount) →
  commits (Orm.transfer_funds_orm from to amount false) w
  ∧ balance_of from (accounts (Orm.transfer_funds_orm from to amount false w).2)
    = Some (b1 - amount)
  ∧ balance_of to (accounts (Orm.transfer_funds_orm from to amount false w).2)
    = Some (b2 + amount).
Proof.
  intros Hpk Hne Hb1 Hb2 Hle Hneg Hi Hi1 Hi2.
  apply balance_of_find in Hb1 as (r1 & H1 & <-).
  apply balance_of_find in Hb2 as (r2 & H2 & <-).
  destruct (settled_balances from to r1 r2 amount (accounts w) Hpk Hne H1 H2)
    as (Hid & Ha & Hb & _).
  pose proof (bindable_int64 r1 r2 amount (accounts w) Hi Hi1 Hi2) as Hbind.
  unfold commits.
  rewrite (transfer_funds_orm_committed _ _ _ _ _ _ _ H1 Hle H2 Hbind (or_introl eq_refl)).
  cbn [snd accounts journal committed_orm fault_row]. rewrite app_nil_r.
  unfold orm_settled. rewrite decide_False by done. done.
Qed.

Lemma orm_negative_amount_overdraws_the_destination_witness :
  balance_of "ACC003"
    (accounts (Orm.transfer_funds_orm "ACC001" "ACC003" (-500) false orm_seeded).2)
  = Some (-300).
Proof.
  apply (orm_negative_amount_overdraws_the_destination "ACC001" "ACC003" (-500)
           orm_seeded 1000 200).
  - unfold primary_key. apply (bool_decide_unpack _). vm_compute. exact I.
  - done.
  - reflexivity.
  - reflexivity.
  - lia.
  - lia.
  - unfold int64. lia.
  - unfold int64. lia.
  - unfold int64. lia.
Defined.

(** ** The seeding and the script of the ORM *)

(** X16. The seeding is a reset.  Whatever rows the table held, each
    seeding function returns, leaves no transaction open, and leaves exactly
    its three rows, with ids 1, 2 and 3: ACC001, ACC002 and ACC003 with 1000,
    2000 and 3000 in the Core script and with 1000, 500 and 200 in the ORM
    script.  Seeding twice leaves what seeding once leaves. *)
Theorem seeding_resets_the_table (w : world) :
  (returns Core.setup_accounts_table w
   ∧ pending (Core.setup_accounts_table w).2 = None
   ∧ accounts (Core.setup_accounts_table w).2
     = [Account 1 "ACC001" 1000; Account 2 "ACC002" 2000; Account 3 "ACC003" 3000]
   ∧ accounts (Core.setup_accounts_table (Core.setup_accounts_table w).2).2
     = accounts (Core.setup_accounts_table w).2)
  ∧ (returns Orm.setup_accounts_orm_table w
     ∧ pending (Orm.setup_accounts_orm_table w).2 = None
     ∧ accounts (Orm.setup_accounts_orm_table w).2
       = [Account 1 "ACC001" 1000; Account 2 "ACC002" 500; Account 3 "ACC003" 200]
     ∧ accounts (Orm.setup_accounts_orm_table (Orm.setup_accounts_orm_table w).2).2
       = accounts (Orm.setup_accounts_orm_table w).2).
Proof.
  unfold returns. split.
  - split; [vm_compute; reflexivity|]. split; [vm_compute; reflexivity|].
    split; [apply setup_accounts_table_seeds|].
    by rewrite !setup_accounts_table_seeds.
  - split; [vm_compute; reflexivity|]. split; [vm_compute; reflexivity|].
    split; [apply setup_accounts_orm_table_seeds|].
    by rewrite !setup_accounts_orm_table_seeds.
Qed.

Lemma find_settle (n : string) (k1 v1 k2 v2 : Z) (t : list account) :
  List.find (has_number n) t = None →
  List.find (has_number n) (settle k1 v1 k2 v2 <$> t) = None.
Proof.
  intros H. rewrite find_fmap_preserving by (intros; apply has_number_settle).
  by rewrite H.
Qed.

(** X17. The scenario of the ORM script.  After the seeding the balances
    are 1000, 500 and 200.  The transfer of 200 from ACC001 to ACC002 commits
    and leaves 800, 700 and 200.  The transfer of 500 from ACC001 to ACC003
    with the simulated fault passes the funds check, fails at the commit on
    the uniqueness constraint, and is rolled back.  A transfer from an
    account number that is not in the table to ACC001 is then rolled back
    with the source-not-found failure.  The rows stay at 800, 700 and 200. *)
Theorem orm_scenario (w0 : world) (nope : string) (amount : Z) :
  balance_of nope orm_seeded_rows = None →
  let w := (Orm.setup_accounts_orm_table w0).2 in
  let w1 := (Orm.transfer_funds_orm "ACC001" "ACC002" 200 false w).2 in
  let w2 := (Orm.transfer_funds_orm "ACC001" "ACC003" 500 true w1).2 in
  let w3 := (Orm.transfer_funds_orm nope "ACC001" amount false w2).2 in
  balances w = [("ACC001", 1000); ("ACC002", 500); ("ACC003", 200)]
  ∧ commits (Orm.transfer_funds_orm "ACC001" "ACC002" 200 false) w
  ∧ balances w1 = [("ACC001", 800); ("ACC002", 700); ("ACC003", 200)]
  ∧ raised_in_try_orm "ACC001" "ACC003" 500 true w1 = inl unique_violation
  ∧ rolls_back (Orm.transfer_funds_orm "ACC001" "ACC003" 500 true) w1
  ∧ accounts w2 = accounts w1
  ∧ raised_in_try_orm nope "ACC001" amount false w2 = inl (Orm.source_not_found nope)
  ∧ rolls_back (Orm.transfer_funds_orm nope "ACC001" amount false) w2
  ∧ accounts w3 = accounts w2.
Proof.
  intros Hnope w w1 w2 w3.
  assert (Hw : accounts w = orm_seeded_rows) by apply setup_accounts_orm_table_seeds.
  assert (H1 : List.find (has_number "ACC001") (accounts w)
               = Some (Account 1 "ACC001" 1000)) by (rewrite Hw; reflexivity).
  assert (H2 : List.find (has_number "ACC002") (accounts w)
               = Some (Account 2 "ACC002" 500)) by (rewrite Hw; reflexivity).
  assert (Hrun1 : Orm.transfer_funds_orm "ACC001" "ACC002" 200 false w
                  = (inr (),
                     committed_orm
                       (settle 1 (1000 - 200) 2 (500 + 200) <$> accounts w)
                       [attempting "ACC001" "ACC002" false;
                        successful_line "ACC001" "ACC002"] w)).
  { rewrite (transfer_funds_orm_committed _ _ _ _ _ (Account 1 "ACC001" 1000)
               (Account 2 "ACC002" 500) H1);
      [|cbn; lia | exact H2 | apply bindable_int64; unfold int64; cbn; lia | by left].
    cbn [fault_row fault_lines app]. by rewrite app_nil_r. }
  assert (Hw1 : accounts w1
                = settle 1 (1000 - 200) 2 (500 + 200) <$> orm_seeded_rows).
  { subst w1. rewrite Hrun1. cbn [snd accounts committed_orm]. by rewrite Hw. }
  assert (H3 : List.find (has_number "ACC001") (accounts w1)
               = Some (Account 1 "ACC001" 800)) by (rewrite Hw1; reflexivity).
  assert (H4 : List.find (has_number "ACC003") (accounts w1)
               = Some (Account 3 "ACC003" 200)) by (rewrite Hw1; reflexivity).
  assert (Hdup : exists_account "ACC001" (accounts w1) = true)
    by (rewrite Hw1; reflexivity).
  destruct (orm_simulated_fault_restores "ACC001" "ACC003" 500 w1 Hdup) as [Hw2 Hr2].
  fold w2 in Hw2.
  assert (Hmiss : List.find (has_number nope) (accounts w2) = None).
  { rewrite Hw2, Hw1. apply find_settle. apply find_missing.
    exact (proj2 (balance_of_missing _ _) Hnope). }
  split; [unfold balances; rewrite Hw; reflexivity|].
  split; [unfold commits; rewrite Hrun1; reflexivity|].
  split; [unfold balances; rewrite Hw1; reflexivity|].
  split.
  { apply (try_orm_fault_duplicate _ _ _ _ (Account 1 "ACC001" 800)
             (Account 3 "ACC003" 200));
      [exact H3 | cbn; lia | exact H4
       | apply bindable_int64; unfold int64; cbn; lia | exact Hdup]. }
  split; [exact Hr2|]. split; [exact Hw2|].
  split; [by apply try_orm_source_missing|].
  split.
  - unfold rolls_back. rewrite (transfer_funds_orm_source_missing _ _ _ _ _ Hmiss).
    reflexivity.
  - subst w3. rewrite (transfer_funds_orm_source_missing _ _ _ _ _ Hmiss).
    reflexivity.
Qed.

Lemma orm_scenario_witness :
  balance_of "NONEXISTENT" orm_seeded_rows = None
  ∧ balances (Orm.transfer_funds_orm "ACC001" "ACC002" 200 false
                (Orm.setup_accounts_orm_table fresh).2).2
    = [("ACC001", 800); ("ACC002", 700); ("ACC003", 200)].
Proof.
  split; [reflexivity|].
  exact (proj1 (proj2 (proj2 (orm_scenario fresh "NONEXISTENT" 100 eq_refl)))).
Defined.

(** ** Edge cases of the amount, and the report of the reader *)

Lemma moved_zero (from to : string) (t : list account) :
  int64_table t → moved from to 0 t = t.
Proof.
  intros Hint. unfold moved. rewrite <- list_fmap_compose.
  rewrite <- (list_fmap_id t) at 2. apply list_fmap_ext.
  intros i r Hr. apply list_elem_of_lookup_2 in Hr. pose proof (Hint r Hr) as Hb.
  destruct r as [row_id row_number row_balance].
  unfold compose, update_row, has_number, Datatypes.id.
  cbn [id account_number balance] in *.
  split_numbers row_number; subst; try congruence; exact_arith; f_equal; lia.
Qed.

Lemma with_balance_same (r : account) (v : Z) :
  v = balance r → Orm.with_balance v r = r.
Proof. intros ->. by destruct r. Qed.

Lemma orm_settled_zero (from to : string) (r1 r2 : account) (t : list account) :
  primary_key t →
  List.find (has_number from) t = Some r1 →
  List.find (has_number to) t = Some r2 →
  orm_settled r1 r2 0 t = t.
Proof.
  intros Hpk H1 H2.
  destruct (find_has_number _ _ _ H1) as [Hin1 _].
  destruct (find_has_number _ _ _ H2) as [Hin2 _].
  unfold orm_settled. case_decide as Hid; [by apply settle_same|].
  rewrite <- (list_fmap_id t) at 2. apply list_fmap_ext. intros i r Hr.
  apply list_elem_of_lookup_2 in Hr. unfold settle, Datatypes.id.
  repeat case_decide; [| |done].
  - rewrite (primary_key_inj t r r2) by done. apply with_balance_same. lia.
  - rewrite (primary_key_inj t r r1) by done. apply with_balance_same. lia.
Qed.

(** X18. A transfer of zero moves nothing, and whether it is let through
    differs between the two scripts.  The Core transfer of 0 between two
    existing accounts, with no simulated fault, commits; on a table of 64-bit
    integers the Core transfer of 0 leaves the committed rows as they were
    for every input.  The ORM transfer of 0 with no simulated fault, on a
    table with distinct ids, leaves the committed rows as they were; between
    two existing accounts it commits when the balance of the source is not
    negative, and is rejected by the funds check and rolled back when it
    is. *)
Theorem zero_amount_moves_nothing (from to : string) (sf : bool) (w : world) :
  (is_Some (balance_of from (accounts w)) → is_Some (balance_of to (accounts w)) →
   commits (Core.transfer_funds from to 0 false) w)
  ∧ (int64_table (accounts w) →
     accounts (Core.transfer_funds from to 0 sf w).2 = accounts w)
  ∧ (primary_key (accounts w) →
     accounts (Orm.transfer_funds_orm from to 0 false w).2 = accounts w
     ∧ ∀ b, balance_of from (accounts w) = Some b →
            is_Some (balance_of to (accounts w)) →
            (0 ≤ b → commits (Orm.transfer_funds_orm from to 0 false) w)
            ∧ (b < 0 →
               rolls_back (Orm.transfer_funds_orm from to 0 false) w
               ∧ raised_in_try_orm from to 0 false w
                 = inl (Orm.insufficient_funds from))).
Proof.
  split; [|split].
  - intros Hf Ht. apply transfer_funds_commits_iff, core_accepts_spec.
    split; [unfold int64; lia | done].
  - intros Hint. rewrite transfer_funds_accounts.
    destruct (core_accepts from to 0 sf (accounts w)); [by apply moved_zero | done].
  - intros Hpk. split.
    + destruct (transfer_funds_orm_outcome from to 0 false w)
        as [[_ [lines ->]]|[_ (r1 & r2 & lines & H1 & H2 & _ & ->)]]; [done|].
      cbn [snd accounts committed_orm fault_row]. rewrite app_nil_r.
      by eapply orm_settled_zero.
    + intros b Hb [b2 Hb2].
      apply balance_of_find in Hb as (r1 & H1 & <-).
      apply balance_of_find in Hb2 as (r2 & H2 & _).
      destruct (find_has_number _ _ _ H1) as [Hin1 _].
      destruct (find_has_number _ _ _ H2) as [Hin2 _].
      split.
      * intros Hle. apply transfer_funds_orm_commits_iff.
        apply (orm_accepts_intro _ _ _ _ _ r1 r2); try done; [|by left].
        by apply bindable_zero.
      * intros Hlt. split; [|by eapply try_orm_insufficient].
        unfold rolls_back.
        by rewrite (transfer_funds_orm_insufficient _ _ _ _ _ _ H1 Hlt).
Qed.

(** X19. The report of the balance reader is complete: after its heading
    it prints one line for each row of the table and nothing else, so the
    line of every account of the table, with its committed balance, is among
    the printed lines.  This holds for the reader of either script. *)
Theorem balance_report_is_complete (w : world) :
  (length (printed Core.get_account_balances w) = S (length (accounts w))
   ∧ ∀ r, r ∈ accounts w →
       Core.balance_line r ∈ printed Core.get_account_balances w)
  ∧ (length (printed Orm.get_account_balances_orm w) = S (length (accounts w))
     ∧ ∀ r, r ∈ accounts w →
         Orm.balance_line r ∈ printed Orm.get_account_balances_orm w).
Proof.
  split.
  - rewrite (printed_app _ _ (balances_report (accounts w)))
      by (by rewrite get_account_balances_run).
    unfold balances_report. split.
    + cbn [length]. by rewrite length_fmap, order_by_account_number_perm.
    + intros r Hr. apply list_elem_of_further, list_elem_of_fmap_2.
      by rewrite order_by_account_number_perm.
  - rewrite (printed_app _ _ (balances_report_orm (accounts w)))
      by (by rewrite get_account_balances_orm_run).
    unfold balances_report_orm. split.
    + cbn [length]. by rewrite length_fmap, order_by_account_number_perm.
    + intros r Hr. apply list_elem_of_further, list_elem_of_fmap_2.
      by rewrite order_by_account_number_perm.
Qed.

(** ** The two transfers side by side *)

Lemma orm_settled_moved (from to : string) (r1 r2 : account) (amount : Z)
    (t : list account) :
  primary_key t → unique_numbers t →
  List.find (has_number from) t = Some r1 →
  List.find (has_number to) t = Some r2 →
  orm_settled r1 r2 amount t = moved_exactly from to amount t.
Proof.
  intros Hpk Hun H1 H2.
  destruct (find_has_number _ _ _ H1) as [Hin1 Hn1].
  destruct (find_has_number _ _ _ H2) as [Hin2 Hn2].
  destruct (decide (from = to)) as [->|Hne].
  { assert (r2 = r1) as -> by congruence.
    unfold orm_settled. rewrite decide_True by done.
    by rewrite settle_same, moved_exactly_same. }
  destruct (settled_balances from to r1 r2 amount t Hpk Hne H1 H2) as (Hid & _).
  unfold orm_settled, moved_exactly. rewrite decide_False by done.
  rewrite <- list_fmap_compose. apply list_fmap_ext. intros i r Hr.
  apply list_elem_of_lookup_2 in Hr. unfold compose, settle, update_row.
  destruct (has_number from r) eqn:Ef.
  - assert (r = r1) as ->.
    { apply (unique_numbers_inj t); [done..|].
      apply String.eqb_eq in Ef. congruence. }
    rewrite decide_False, decide_True by done.
    unfold has_number, Orm.with_balance. cbn [account_number]. rewrite Hn1.
    by rewrite (proj2 (String.eqb_neq from to) Hne).
  - destruct (has_number to r) eqn:Et.
    + assert (r = r2) as ->.
      { apply (unique_numbers_inj t); [done..|].
        apply String.eqb_eq in Et. congruence. }
      by rewrite decide_True.
    + rewrite decide_False, decide_False; [done| |].
      * intros Heq. rewrite (primary_key_inj t r r1 Hpk Hr Hin1 Heq) in Ef.
        unfold has_number in Ef. rewrite Hn1, String.eqb_refl in Ef. done.
      * intros Heq. rewrite (primary_key_inj t r r2 Hpk Hr Hin2 Heq) in Et.
        unfold has_number in Et. rewrite Hn2, String.eqb_refl in Et. done.
Qed.

Lemma transfer_funds_orm_accounts (from to : string) (amount : Z) (w : world) :
  primary_key (accounts w) → unique_numbers (accounts w) →
  accounts (Orm.transfer_funds_orm from to amount false w).2
  = if orm_accepts from to amount false (accounts w)
    then moved_exactly from to amount (accounts w) else accounts w.
Proof.
  intros Hpk Hun.
  destruct (transfer_funds_orm_outcome from to amount false w)
    as [[-> [lines ->]]|[-> (r1 & r2 & lines & H1 & H2 & _ & ->)]]; [done|].
  cbn [snd accounts committed_orm fault_row]. rewrite app_nil_r.
  by apply orm_settled_moved.
Qed.

(** X20. Within the 64-bit range the two transfers agree whenever the ORM
    one goes through: on a table of 64-bit integers with distinct ids and
    distinct account numbers, with no simulated fault, an amount that can be
    bound and new balances that are 64-bit integers, if the ORM transfer
    commits then the Core transfer of the same amount between the same
    accounts commits too and both leave the same committed rows.  (The
    converse fails: the Core transfer has no funds check.) *)
Theorem orm_and_core_transfers_agree (from to : string) (amount : Z) (w : world) :
  primary_key (accounts w) →
  unique_numbers (accounts w) →
  int64_table (accounts w) →
  int64 amount →
  keeps_int64 from to amount (accounts w) →
  commits (Orm.transfer_funds_orm from to amount false) w →
  commits (Core.transfer_funds from to amount false) w
  ∧ accounts (Orm.transfer_funds_orm from to amount false w).2
    = accounts (Core.transfer_funds from to amount false w).2.
Proof.
  intros Hpk Hun Hint Hfit Hkeep Hc.
  apply transfer_funds_orm_commits_iff in Hc.
  destruct (orm_accepts_elim _ _ _ _ _ Hc) as (b & Hb & _ & Hto & _).
  assert (Ha : core_accepts from to amount false (accounts w) = true).
  { apply core_accepts_spec. rewrite Hb. eauto. }
  split; [by apply transfer_funds_commits_iff|].
  rewrite transfer_funds_orm_accounts, Hc by done.
  rewrite transfer_funds_accounts, Ha. by rewrite moved_in_range.
Qed.

Lemma orm_and_core_transfers_agree_witness :
  accounts (Orm.transfer_funds_orm "ACC001" "ACC002" 200 false orm_seeded).2
  = accounts (Core.transfer_funds "ACC001" "ACC002" 200 false orm_seeded).2.
Proof.
  apply (orm_and_core_transfers_agree "ACC001" "ACC002" 200 orm_seeded).
  - unfold primary_key. apply (bool_decide_unpack _). vm_compute. exact I.
  - unfold unique_numbers. apply (bool_decide_unpack _). vm_compute. exact I.
  - change (accounts orm_seeded) with orm_seeded_rows. seeded_int64_table.
  - unfold int64. lia.
  - seeded_keeps_int64.
  - vm_compute. reflexivity.
Defined.

Lemma constraints_moved_exactly (from to : string) (amount : Z) (t : list account) :
  primary_key t → unique_numbers t →
  primary_key (moved_exactly from to amount t)
  ∧ unique_numbers (moved_exactly from to amount t).
Proof.
  unfold primary_key, unique_numbers.
  by destruct (id_moved_exactly from to amount t) as [-> ->].
Qed.

(** X21. With enough funds on both sides, and within the 64-bit range, the
    ORM transfer can be undone by the opposite one: on a table with distinct
    ids and distinct account numbers, between two distinct accounts whose
    balances before and after the transfer are 64-bit integers, when the
    source holds at least the amount and the destination is not overdrawn,
    the transfer commits, the transfer of the same amount back commits, and
    the committed rows are then exactly those from before the first
    transfer. *)
Theorem orm_transfer_there_and_back (from to : string) (amount : Z) (w : world)
    (b1 b2 : Z) :
  primary_key (accounts w) →
  unique_numbers (accounts w) →
  from ≠ to →
  balance_of from (accounts w) = Some b1 →
  balance_of to (accounts w) = Some b2 →
  amount ≤ b1 →
  0 ≤ b2 →
  int64 b1 → int64 b2 → int64 (b1 - amount) → int64 (b2 + amount) →
  let w1 := (Orm.transfer_funds_orm from to amount false w).2 in
  commits (Orm.transfer_funds_orm from to amount false) w
  ∧ commits (Orm.transfer_funds_orm to from amount false) w1
  ∧ accounts (Orm.transfer_funds_orm to from amount false w1).2 = accounts w.
Proof.
  intros Hpk Hun Hne Hb1 Hb2 Hle Hpos Hi1 Hi2 Hi1' Hi2' w1.
  assert (Ha : orm_accepts from to amount false (accounts w) = true).
  { apply balance_of_find in Hb1 as (r1 & H1 & <-).
    apply balance_of_find in Hb2 as (r2 & H2 & <-).
    apply (orm_accepts_intro _ _ _ _ _ r1 r2); try done; [|by left].
    by apply bindable_int64. }
  assert (Hw1 : accounts w1 = moved_exactly from to amount (accounts w)).
  { subst w1. by rewrite transfer_funds_orm_accounts, Ha. }
  destruct (moved_exactly_balances from to amount (accounts w) b1 b2 Hne Hb1 Hb2)
    as (Hf & Ht).
  destruct (constraints_moved_exactly from to amount (accounts w) Hpk Hun)
    as [Hpk1 Hun1].
  assert (Hb : orm_accepts to from amount false (accounts w1) = true).
  { rewrite Hw1.
    apply balance_of_find in Ht as (r2' & H2' & E2).
    apply balance_of_find in Hf as (r1' & H1' & E1).
    apply (orm_accepts_intro _ _ _ _ _ r2' r1'); try done; [lia| |by left].
    apply bindable_int64; rewrite ?E1, ?E2; unfold int64 in *; lia. }
  split; [by apply transfer_funds_orm_commits_iff|].
  split; [by apply transfer_funds_orm_commits_iff|].
  rewrite transfer_funds_orm_accounts, Hb by (by rewrite Hw1).
  rewrite Hw1. apply moved_exactly_back.
Qed.

Lemma orm_transfer_there_and_back_witness :
  accounts (Orm.transfer_funds_orm "ACC002" "ACC001" 200 false
              (Orm.transfer_funds_orm "ACC001" "ACC002" 200 false orm_seeded).2).2
  = accounts orm_seeded.
Proof.
  apply (orm_transfer_there_and_back "ACC001" "ACC002" 200 orm_seeded 1000 500).
  - unfold primary_key. apply (bool_decide_unpack _). vm_compute. exact I.
  - unfold unique_numbers. apply (bool_decide_unpack _). vm_compute. exact I.
  - done.
  - reflexivity.
  - reflexivity.
  - lia.
  - lia.
  - unfold int64. lia.
  - unfold int64. lia.
  - unfold int64. lia.
  - unfold int64. lia.
Defined.
